(** * Shallow embedding of opexebo's spatial occupancy pipeline

    Sources embedded:
    - [opexebo/general/accumulatespatial.py]: [accumulatespatial]
    - [opexebo/analysis/spatialOccupancy.py]: [spatial_occupancy]

    Modelling choices.
    - Real numbers (numpy float64) are exact rationals [Q]; positions are
      finite (the docstring requires NaNs to be removed upstream).
    - Python exceptions are the constructors of [pyerr]; a call either
      returns [Ok] or raises [Err].
    - numpy routines used by the code ([np.histogram], [np.histogram2d],
      [np.linspace], [np.min], [np.diff]) are embedded after their
      implementation in numpy 1.13 to 1.17, where [limits == None] on an
      ndarray is element-wise and [np.linspace] still accepts a float [num].
      [np.ceil] returns a numpy float: [np.histogram2d] takes its whole
      value as the bin count (through [np.linspace]), while [np.histogram]
      calls [operator.index] on it, which raises [TypeError].
    - Debug printing is dropped; only the exceptions the printing statements
      can raise are kept. *)

From Stdlib Require Import String Ascii ZArith QArith Qround Qminmax List Bool Lia Lqa Arith.
Import ListNotations.

(** ** Python exceptions and the error monad *)

Inductive pyerr : Type :=
| ValueError
| KeyError
| IndexError
| TypeError
| ZeroDivisionError
| UnboundLocalError
| NotImplementedError (msg : string).

Inductive result (A : Type) : Type :=
| Ok (a : A)
| Err (e : pyerr).
Arguments Ok {A} a.
Arguments Err {A} e.

Definition bind {A B : Type} (m : result A) (k : A -> result B) : result B :=
  match m with
  | Ok a => k a
  | Err e => Err e
  end.

Notation "x <- m ;; k" := (bind m (fun x => k))
  (at level 61, m at next level, right associativity).
Notation "' p <- m ;; k" := (bind m (fun x => match x with p => k end))
  (at level 61, p pattern, m at next level, right associativity).

Definition raise_if {A : Type} (b : bool) (e : pyerr) (k : result A) : result A :=
  if b then Err e else k.

(** ** Numbers *)

Definition Qltb (a b : Q) : bool := negb (Qle_bool b a).
Definition Qleb (a b : Q) : bool := Qle_bool a b.
Definition Qeqb (a b : Q) : bool := Qeq_bool a b.
Definition Q_of_nat (n : nat) : Q := inject_Z (Z.of_nat n).

(** A Python/numpy float that may be non-finite (result of a division). *)
Inductive pyfloat : Type :=
| PFin (q : Q)
| PInf
| PNaN.

(** numpy true division of two counts: [0/0] is nan, [k/0] is inf. *)
Definition np_div_counts (a b : nat) : pyfloat :=
  match b with
  | O => match a with O => PNaN | _ => PInf end
  | _ => PFin (Q_of_nat a / Q_of_nat b)
  end.

(** Python's [min(1.0, v)]: [v] is taken only when [v < 1.0]. *)
Definition py_min_one (v : pyfloat) : Q :=
  match v with
  | PFin q => if Qltb q 1 then q else 1
  | PInf | PNaN => 1
  end.

(** ** Strings: [str.lower] on ASCII and membership in a tuple *)

Definition ascii_lower (c : ascii) : ascii :=
  let n := nat_of_ascii c in
  if (65 <=? n) && (n <=? 90) then ascii_of_nat (n + 32) else c.

Fixpoint py_lower (s : string) : string :=
  match s with
  | EmptyString => EmptyString
  | String c r => String (ascii_lower c) (py_lower r)
  end.

Definition py_in (s : string) (l : list string) : bool :=
  existsb (String.eqb s) l.

(** ** Module [opexebo.defaults]

    Modelled from the spec: [opexebo.defaults] (not among the sources) provides
    the default bin width 2.5, the default speed cutoff 0, the default shape
    (rectangular, per the docstring) and the shape vocabularies listed in the
    spec's section 6. *)
Module default.
Local Open Scope string_scope.
Definition bin_width : Q := 5 # 2.
Definition speed_cutoff : Q := 0.
Definition shape : string := "rectangular".
Definition shapes_square : list string :=
  ["square"; "rectangle"; "rectangular"; "rect"; "s"; "r"].
Definition shapes_circle : list string := ["circle"; "circular"; "circ"; "c"].
Definition shapes_linear : list string := ["linear"; "line"; "l"].
End default.

(** ** Python arguments *)

(** A 2-D numpy array [position] of shape [(length p_rows, p_ncols)]. *)
Record ndarray2 : Type := mk_ndarray2 {
  p_rows : list (list Q);
  p_ncols : nat
}.

(** numpy arrays are rectangular. *)
Definition wf_ndarray2 (a : ndarray2) : Prop :=
  Forall (fun r => length r = p_ncols a) (p_rows a).

(** The [speed] array: its [ndim] and its elements in C order. *)
Record ndarray : Type := mk_ndarray {
  nd_ndim : nat;
  nd_flat : list Q
}.

(** The value of keyword [arena_size]: a Python [float]/[int], a
    [tuple]/[list]/[np.ndarray], or a numpy scalar such as [np.float64]
    (whose [type] is neither [float] nor [int]). *)
Inductive arena_val : Type :=
| PyNum (q : Q)
| PySeq (l : list Q)
| NpScalar (q : Q).

(** The value of keyword [limits]. *)
Inductive limits_val : Type :=
| LTuple (l : list Q)
| LList (l : list Q)
| LNdarray (l : list Q)
| LOther.

(** The keyword arguments; [None] is an absent key. *)
Record kwargs : Type := mk_kwargs {
  kw_arena_shape : option string;
  kw_arena_size : option arena_val;
  kw_bin_width : option Q;
  kw_speed_cutoff : option Q;
  kw_limits : option limits_val;
  kw_debug : bool
}.

Definition get {A : Type} (o : option A) (d : A) : A :=
  match o with Some a => a | None => d end.

(** ** numpy routines *)

(** A numpy float that is finite or not (inf or nan). *)
Inductive npfloat : Type :=
| NFin (q : Q)
| NNonFinite.

(** A numpy float bin count given to [np.histogram2d]: non-finite counts and
    counts below 1 raise. *)
Definition int_bins (b : npfloat) : result nat :=
  match b with
  | NFin q => if Qltb q 1 then Err ValueError else Ok (Z.to_nat (Qfloor q))
  | NNonFinite => Err ValueError
  end.

(** [numpy.lib.histograms._get_outer_edges] for an explicit [range]. *)
Definition get_outer_edges (r : Q * Q) : result (Q * Q) :=
  let '(first_edge, last_edge) := r in
  if Qltb last_edge first_edge then Err ValueError
  else if Qeqb first_edge last_edge
  then Ok (first_edge - (1 # 2), last_edge + (1 # 2))
  else Ok (first_edge, last_edge).

(** [np.linspace(start, stop, n + 1)]: the last point is set to [stop]. *)
Definition linspace (start stop : Q) (n : nat) : list Q :=
  let step := (stop - start) / Q_of_nat n in
  map (fun k => start + Q_of_nat k * step) (seq 0 n) ++ [stop].

Definition count_nat (k : nat) (l : list nat) : nat :=
  length (filter (Nat.eqb k) l).

(** Bin index of a kept sample in [np.histogram] (uniform bins). *)
Definition hist_index (bin_edges : list Q) (first_edge last_edge : Q) (n : nat)
    (v : Q) : nat :=
  let norm := Q_of_nat n / (last_edge - first_edge) in
  let i0 := Z.to_nat (Qfloor ((v - first_edge) * norm)) in
  let i1 := if Nat.eqb i0 n then Nat.pred i0 else i0 in
  let i2 := if Qltb v (nth i1 bin_edges 0) then Nat.pred i1 else i1 in
  if Qleb (nth (S i2) bin_edges 0) v && negb (Nat.eqb i2 (Nat.pred n)) then S i2 else i2.

(** The [bins] argument of [np.histogram]: a Python int, or a numpy float
    such as the result of [np.ceil]. *)
Inductive bins_arg : Type :=
| BinsInt (n : Z)
| BinsFloat (f : npfloat).

(** [operator.index(bins)] and the check [n_equal_bins < 1] of
    [numpy.lib.histograms._get_bin_edges]: a numpy float has no [__index__],
    so [operator.index] raises [TypeError] on it. *)
Definition hist_bin_count (b : bins_arg) : result nat :=
  match b with
  | BinsInt n => if Z.ltb n 1 then Err ValueError else Ok (Z.to_nat n)
  | BinsFloat _ => Err TypeError
  end.

(** [np.histogram(a, bins=n, range=r)]: the bin count is checked first;
    samples in the closed range [[first_edge, last_edge]] are counted and
    the last bin is closed. *)
Definition histogram (a : list Q) (bins : bins_arg) (range : Q * Q)
    : result (list nat * list Q) :=
  n <- hist_bin_count bins;;
  '(first_edge, last_edge) <- get_outer_edges range;;
  let bin_edges := linspace first_edge last_edge n in
  let keep := filter (fun v => Qleb first_edge v && Qleb v last_edge) a in
  let indices := map (hist_index bin_edges first_edge last_edge n) keep in
  Ok (map (fun b => count_nat b indices) (seq 0 n), bin_edges).

(** [np.searchsorted(edges, v, side='right')] on a sorted array. *)
Definition searchsorted_right (edges : list Q) (v : Q) : nat :=
  length (filter (fun e => Qleb e v) edges).

(** Per-axis cell index of [np.histogramdd]: a sample on the rightmost edge
    is moved into the last bin; indices [0] and [n + 1] are outliers. *)
Definition dd_index (edges : list Q) (v : Q) : nat :=
  let i := searchsorted_right edges v in
  if Qeqb v (last edges 0) then Nat.pred i else i.

Definition count_cell (cells : list (nat * nat)) (i j : nat) : nat :=
  length (filter (fun c => Nat.eqb (fst c) i && Nat.eqb (snd c) j) cells).

(** [np.histogram2d(x, y, bins=[nx, ny], range=[rx, ry])]: the histogram
    has shape [(nx, ny)], first index along [x]. *)
Definition histogram2d (x y : list Q) (bins : list npfloat)
    (range : (Q * Q) * (Q * Q)) : result (list (list nat) * list Q * list Q) :=
  raise_if (negb (Nat.eqb (length x) (length y))) ValueError (
  match bins with
  | [bx; bY] =>
      nx <- int_bins bx;;
      '(xl, xh) <- get_outer_edges (fst range);;
      ny <- int_bins bY;;
      '(yl, yh) <- get_outer_edges (snd range);;
      let xedges := linspace xl xh nx in
      let yedges := linspace yl yh ny in
      let cells := combine (map (dd_index xedges) x) (map (dd_index yedges) y) in
      Ok (map (fun i => map (fun j => count_cell cells (S i) (S j)) (seq 0 ny))
              (seq 0 nx), xedges, yedges)
  | _ => Err ValueError
  end).

(** [ndarray.transpose()] of a 2-D array. *)
Definition np_transpose (g : list (list nat)) : list (list nat) :=
  match g with
  | [] => []
  | r :: _ => map (fun j => map (fun row => nth j row O) g) (seq 0 (length r))
  end.

(** [np.nanmin], [np.nanmax], [np.min]: a zero-size array raises. *)
Definition nanmin (l : list Q) : result Q :=
  match l with [] => Err ValueError | v :: r => Ok (fold_left Qmin r v) end.
Definition nanmax (l : list Q) : result Q :=
  match l with [] => Err ValueError | v :: r => Ok (fold_left Qmax r v) end.
Definition np_min (l : list Q) : result Q := nanmin l.

(** [np.diff]: consecutive differences. *)
Definition np_diff (t : list Q) : list Q :=
  match t with
  | [] => []
  | _ :: r => map (fun p => snd p - fst p) (combine t r)
  end.

(** Boolean indexing [a[mask]]; a mask of another length raises. *)
Definition bool_index (a : list Q) (mask : list bool) : result (list Q) :=
  if Nat.eqb (length a) (length mask) then Ok (map fst (filter snd (combine a mask)))
  else Err IndexError.

(** Row access [a[i, :]]. *)
Definition row_at (a : ndarray2) (i : nat) : result (list Q) :=
  match nth_error (p_rows a) i with
  | Some r => Ok r
  | None => Err IndexError
  end.

(** ** Keyword validation *)

(** A normalised arena size: one extent ([is_2d] false) or two. *)
Inductive arena_norm : Type :=
| Arena1 (a : Q)
| Arena2 (ax ay : Q).

(** Modelled from the spec: [opexebo.general.validatekeyword__arena_size]
    (not among the sources) "normalizes scalar vs pair inputs and confirms
    dimensional consistency": a number or a one-element sequence is the
    extent of a 1-D arena, or of both sides of a square 2-D arena; a pair is
    the [(x, y)] extent of a 2-D arena; anything else is an invalid input. *)
Definition validatekeyword__arena_size (kwv : option arena_val) (dims : nat)
    : result (arena_norm * bool) :=
  match kwv with
  | Some (PyNum a) | Some (NpScalar a) | Some (PySeq [a]) =>
      if Nat.eqb dims 1 then Ok (Arena1 a, false)
      else if Nat.eqb dims 2 then Ok (Arena2 a a, true)
      else Err ValueError
  | Some (PySeq [ax; ay]) =>
      if Nat.eqb dims 2 then Ok (Arena2 ax ay, true) else Err ValueError
  | _ => Err ValueError
  end.

(** [np.ceil(arena_size / bin_width)]: a 1-D arena size is a Python float,
    whose division by zero raises; a 2-D one is an array, whose division by
    zero is inf or nan. *)
Definition np_ceil_div (a bin_width : Q) : npfloat :=
  if Qeqb bin_width 0 then NNonFinite
  else NFin (inject_Z (Qceiling (a / bin_width))).

Definition num_bins_of (arena_size : arena_norm) (bin_width : Q)
    : result (list npfloat) :=
  match arena_size with
  | Arena1 a =>
      raise_if (Qeqb bin_width 0) ZeroDivisionError (Ok [np_ceil_div a bin_width])
  | Arena2 ax ay => Ok [np_ceil_div ax bin_width; np_ceil_div ay bin_width]
  end.

(** [type(limits) not in (tuple, list, np.ndarray, type(None))]. *)
Definition limits_type_bad (limits : option limits_val) : bool :=
  match limits with Some LOther => true | _ => false end.

(** The truth value of [limits == None]: [False] for a tuple or a list; for
    an ndarray the comparison is element-wise and [if] on the resulting
    array raises unless it has exactly one element. *)
Definition limits_eq_none (limits : option limits_val) : result bool :=
  match limits with
  | None => Ok true
  | Some (LTuple _) | Some (LList _) | Some LOther => Ok false
  | Some (LNdarray [_]) => Ok false
  | Some (LNdarray _) => Err ValueError
  end.

Definition limits_elems (limits : option limits_val) : list Q :=
  match limits with
  | Some (LTuple l) | Some (LList l) | Some (LNdarray l) => l
  | _ => []
  end.

(** ** [opexebo.general.accumulatespatial] *)

Inductive hist_val : Type :=
| Hist1 (h : list nat)
| Hist2 (h : list (list nat)).

Inductive edges_val : Type :=
| Edges1 (e : list Q)
| Edges2 (e0 e1 : list Q).

Definition in_box (limits : (Q * Q) * (Q * Q)) (p : Q * Q) : bool :=
  let '((xl, xh), (yl, yh)) := limits in
  (Qleb xl (fst p) && Qltb (fst p) xh) && (Qleb yl (snd p) && Qltb (snd p) yh).

Definition limits_2d (x y : list Q) (limits : option limits_val)
    : result ((Q * Q) * (Q * Q)) :=
  is_none <- limits_eq_none limits;;
  if is_none then
    xl <- nanmin x;; xh <- nanmax x;; yl <- nanmin y;; yh <- nanmax y;;
    Ok ((xl, xh), (yl, yh))
  else
    let l := limits_elems limits in
    if negb (Nat.eqb (length l) 4) then Err ValueError
    else Ok ((nth 0 l 0, nth 1 l 0), (nth 2 l 0, nth 3 l 0)).

Definition limits_1d (x : list Q) (limits : option limits_val) : result (Q * Q) :=
  is_none <- limits_eq_none limits;;
  if is_none then lo <- nanmin x;; hi <- nanmax x;; Ok (lo, hi)
  else
    let l := limits_elems limits in
    if negb (Nat.eqb (length l) 2) then Err ValueError
    else Ok (nth 0 l 0, nth 1 l 0).

Definition accumulatespatial (pos : ndarray2) (kw : kwargs)
    : result (hist_val * edges_val) :=
  let dims := length (p_rows pos) in
  raise_if (negb (Nat.eqb dims 1 || Nat.eqb dims 2)) ValueError (
  let bin_width := get (kw_bin_width kw) default.bin_width in
  let limits := kw_limits kw in
  raise_if (limits_type_bad limits) ValueError (
  '(arena_size, is_2d) <- validatekeyword__arena_size (kw_arena_size kw) dims;;
  num_bins <- num_bins_of arena_size bin_width;;
  x <- row_at pos 0;;
  if is_2d then
    y <- row_at pos 1;;
    lims <- limits_2d x y limits;;
    let in_range := map (in_box lims) (combine x y) in
    in_range_x <- bool_index x in_range;;
    in_range_y <- bool_index y in_range;;
    '(hist, xedges, yedges) <- histogram2d in_range_x in_range_y num_bins lims;;
    Ok (Hist2 (np_transpose hist), Edges2 yedges xedges)
  else
    lims <- limits_1d x limits;;
    let in_range := map (fun v => Qleb (fst lims) v && Qltb v (snd lims)) x in
    let in_range_x := map fst (filter snd (combine x in_range)) in
    '(hist, edges) <- histogram x (BinsFloat (nth 0 num_bins NNonFinite)) lims;;
    Ok (Hist1 hist, Edges1 edges))).

(** ** [opexebo.analysis.spatial_occupancy] *)

(** A numpy masked array: each bin is its value and its mask bit. *)
Inductive masked_val : Type :=
| Masked1 (m : list (Q * bool))
| Masked2 (m : list (list (Q * bool))).

Definition hist_flat (h : hist_val) : list nat :=
  match h with Hist1 l => l | Hist2 g => concat g end.

Definition masked_flat (m : masked_val) : list (Q * bool) :=
  match m with Masked1 l => l | Masked2 g => concat g end.

(** One bin of [np.ma.masked_where(occupancy_map < 0.001, occupancy_map_time)]
    where [occupancy_map_time = occupancy_map * frame_duration]. *)
Definition masked_bin (frame_duration : Q) (count : nat) : Q * bool :=
  (Q_of_nat count * frame_duration, Qltb (Q_of_nat count) (1 # 1000)).

Definition masked_where_map (frame_duration : Q) (h : hist_val) : masked_val :=
  match h with
  | Hist1 l => Masked1 (map (masked_bin frame_duration) l)
  | Hist2 g => Masked2 (map (map (masked_bin frame_duration)) g)
  end.

Definition count_nonzero (l : list nat) : nat :=
  length (filter (fun c => negb (Nat.eqb c 0)) l).

Definition count_true (l : list bool) : nat := length (filter (fun b => b) l).

(** [np.sqrt(X**2 + Y**2) <= radius], with the square root taken exactly. *)
Definition within (X Y radius : Q) : bool :=
  Qleb 0 radius && Qleb (X * X + Y * Y) (radius * radius).

(** The [radius] of a circular arena; [None] when no branch assigns it. *)
Definition circle_radius (arena_size : option arena_val) : result (option Q) :=
  match arena_size with
  | Some (PyNum a) => Ok (Some (a / 2))
  | Some (PySeq (a :: _)) => Ok (Some (a / 2))
  | Some (PySeq []) => Err IndexError
  | Some (NpScalar _) | None => Ok None
  end.

(** Coverage of a circular arena: visited bins over bins whose centre lies
    in the circle about the origin, capped at 1. *)
Definition circle_coverage (arena_size : option arena_val) (bin_width : Q)
    (bin_edges : edges_val) (nonzero : nat) : result Q :=
  radius <- circle_radius arena_size;;
  match bin_edges with
  | Edges1 _ => Err TypeError
  | Edges2 e0 e1 =>
      let x_centres := map (fun e => e + bin_width / 2) (removelast e0) in
      let y_centres := map (fun e => e + bin_width / 2) (removelast e1) in
      match radius with
      | None => Err UnboundLocalError
      | Some r =>
          let in_field :=
            flat_map (fun Y => map (fun X => within X Y r) x_centres) y_centres in
          Ok (py_min_one (np_div_counts nonzero (count_true in_field)))
      end
  end.

Definition linear_msg : string :=
  "Spatial Occupancy does not currently support linear arenas".

Definition unknown_shape_msg (shape : string) : string :=
  "Arena shape '" ++ shape ++ "' not understood".

(** Lines 85-125 of [spatial_occupancy]: input checks, speed filter,
    histogram and frame duration. *)
Definition occupancy_histogram (time : list Q) (position : ndarray2)
    (speed : ndarray) (kw : kwargs) : result (hist_val * edges_val * Q) :=
  let dimensionality := length (p_rows position) in
  let num_samples := p_ncols position in
  raise_if (negb (Nat.eqb dimensionality 1 || Nat.eqb dimensionality 2)) ValueError (
  raise_if (negb (Nat.eqb (nd_ndim speed) 1)) ValueError (
  raise_if (negb (Nat.eqb (length (nd_flat speed)) num_samples)) ValueError (
  raise_if (match kw_arena_size kw with None => true | Some _ => false end) KeyError (
  let speed_cutoff := get (kw_speed_cutoff kw) default.speed_cutoff in
  let debug := kw_debug kw in
  (* [time[-1]] and [np.min(np.diff(time))] in the debug printout *)
  raise_if (debug && Nat.eqb (length time) 0) IndexError (
  raise_if (debug && Nat.ltb (length time) 2) ValueError (
  let good := map (fun s => Qltb speed_cutoff s) (nd_flat speed) in
  row0 <- row_at position 0;;
  x <- bool_index row0 good;;
  row1 <- row_at position 1;;
  y <- bool_index row1 good;;
  let pos := mk_ndarray2 [x; y] (length x) in
  '(occupancy_map, bin_edges) <- accumulatespatial pos kw;;
  frame_duration <- np_min (np_diff time);;
  Ok (occupancy_map, bin_edges, frame_duration))))))).

Definition spatial_occupancy (time : list Q) (position : ndarray2)
    (speed : ndarray) (kw : kwargs) : result (masked_val * Q * edges_val) :=
  '(occupancy_map, bin_edges, frame_duration) <-
    occupancy_histogram time position speed kw;;
  let masked_map := masked_where_map frame_duration occupancy_map in
  let arena_size := kw_arena_size kw in
  let bin_width := get (kw_bin_width kw) default.bin_width in
  let shape := get (kw_arena_shape kw) default.shape in
  let counts := hist_flat occupancy_map in
  let nonzero := count_nonzero counts in
  if py_in (py_lower shape) default.shapes_square then
    match length counts with
    | O => Err ZeroDivisionError
    | size => Ok (masked_map, Q_of_nat nonzero / Q_of_nat size, bin_edges)
    end
  else if py_in (py_lower shape) default.shapes_circle then
    coverage <- circle_coverage arena_size bin_width bin_edges nonzero;;
    Ok (masked_map, coverage, bin_edges)
  else if py_in (py_lower shape) default.shapes_linear then
    Err (NotImplementedError linear_msg)
  else Err (NotImplementedError (unknown_shape_msg shape)).

(** ** The spec's frame duration

    The spec's wording of the frame duration (step 4 of the occupancy
    mapper): the minimum positive timestamp delta over the whole series. *)
Definition spec_frame_duration (time : list Q) : result Q :=
  np_min (filter (fun d => Qltb 0 d) (np_diff time)).

(** ** Strictly increasing arrays *)
Definition strictly_increasing (l : list Q) : Prop :=
  forall i, (S i < length l)%nat -> nth i l 0 < nth (S i) l 0.

(** ** Sample inputs *)

(** Keyword arguments: a 10 cm arena, the default 2.5 cm bins, the given
    shape tag and limits. *)
Definition kw_arena10 (shape : option string) (limits : option limits_val)
    : kwargs :=
  mk_kwargs shape (Some (PyNum 10)) None None limits false.

(** Three samples of a 2-D trajectory, and one of a 1-D trajectory. *)
Definition pos_2x3 : ndarray2 := mk_ndarray2 [[1; 3; 5]; [1; 2; 7]] 3.
Definition pos_1x3 : ndarray2 := mk_ndarray2 [[1; 3; 5]] 3.
Definition speed_3 : ndarray := mk_ndarray 1 [1; 1; 1].

(** [spatial_occupancy]'s keyword arguments with the [debug] flag set. *)
Definition with_debug (kw : kwargs) (debug : bool) : kwargs :=
  mk_kwargs (kw_arena_shape kw) (kw_arena_size kw) (kw_bin_width kw)
    (kw_speed_cutoff kw) (kw_limits kw) debug.

(** The keyword arguments with [limits] given explicitly. *)
Definition with_limits (kw : kwargs) (limits : limits_val) : kwargs :=
  mk_kwargs (kw_arena_shape kw) (kw_arena_size kw) (kw_bin_width kw)
    (kw_speed_cutoff kw) (Some limits) (kw_debug kw).

(** The 2-D histogram of [pos_2x3] over [[0, 10) x [0, 10)] in 2.5 cm bins. *)
Definition pos_2x3_cells : list (list nat) :=
  [[1; 1; 0; 0]; [0; 0; 0; 0]; [0; 0; 1; 0]; [0; 0; 0; 0]]%nat.

(** Three samples of a 2-D trajectory far from the origin. *)
Definition pos_2x3_far : ndarray2 := mk_ndarray2 [[21; 22; 23]; [21; 22; 23]] 3.

(** * Properties *)

(** ** Evaluation lemmas for the error monad *)

Lemma bind_Err {A B : Type} (e : pyerr) (k : A -> result B) :
  bind (Err e) k = Err e.
Proof. reflexivity. Qed.

Lemma bind_Ok {A B : Type} (a : A) (k : A -> result B) :
  bind (Ok a) k = k a.
Proof. reflexivity. Qed.

Lemma bind_eq_Ok {A B : Type} (m : result A) (k : A -> result B) (b : B) :
  bind m k = Ok b -> exists a, m = Ok a /\ k a = Ok b.
Proof. destruct m as [a|e]; simpl; [eauto | discriminate]. Qed.

Lemma raise_if_eq_Ok {A : Type} (c : bool) (e : pyerr) (k : result A) (a : A) :
  raise_if c e k = Ok a -> c = false /\ k = Ok a.
Proof. destruct c; simpl; [discriminate | auto]. Qed.

Lemma row_at_missing (a : ndarray2) (i : nat) :
  (length (p_rows a) <= i)%nat -> row_at a i = Err IndexError.
Proof. intros H. unfold row_at. rewrite (proj2 (nth_error_None _ _) H). reflexivity. Qed.

(** Peel the [raise_if] guards and the [bind]s of a computation that is
    known to return [Ok]. *)
Ltac peel_ok H :=
  repeat match type of H with
  | raise_if _ _ _ = Ok _ =>
      let Hc := fresh "Hc" in apply raise_if_eq_Ok in H; destruct H as [Hc H]
  | bind _ _ = Ok _ =>
      let a := fresh "a" in let Ha := fresh "Ha" in
      apply bind_eq_Ok in H; destruct H as [a [Ha H]]
  | (match ?x with _ => _ end) = Ok _ =>
      let Hx := fresh "Hx" in destruct x eqn:Hx
  | Err _ = Ok _ => discriminate H
  end.

Lemma occupancy_histogram_1d_position (time : list Q) (position : ndarray2)
    (speed : ndarray) (kw : kwargs) :
  length (p_rows position) = 1%nat ->
  forall r, occupancy_histogram time position speed kw <> Ok r.
Proof.
  intros Hd r H. unfold occupancy_histogram in H.
  rewrite (row_at_missing position 1) in H by lia.
  peel_ok H. discriminate.
Qed.

(** C1 (1-D part).  A position array with a single row ([dimensionality]
    1, accepted by the shape check) never yields an occupancy map:
    [position[1,:]] raises for every such input. *)
Theorem spatial_occupancy_1d_position_raises (time : list Q) (position : ndarray2)
    (speed : ndarray) (kw : kwargs) :
  length (p_rows position) = 1%nat ->
  forall r, spatial_occupancy time position speed kw <> Ok r.
Proof.
  intros Hd r H. unfold spatial_occupancy in H.
  apply bind_eq_Ok in H. destruct H as [[[h e] fd] [H _]].
  exact (occupancy_histogram_1d_position time position speed kw Hd _ H).
Qed.

(** C7.  A speed array that is not 1-D, or whose length is not the number
    of position samples, makes [spatial_occupancy] raise [ValueError]; a
    missing [arena_size] makes it raise, with [KeyError] once the shape
    checks have passed.  Either way nothing is returned. *)
Theorem spatial_occupancy_speed_and_arena_checks (time : list Q)
    (position : ndarray2) (speed : ndarray) (kw : kwargs) :
  ((nd_ndim speed <> 1%nat \/ length (nd_flat speed) <> p_ncols position) ->
   spatial_occupancy time position speed kw = Err ValueError) /\
  (kw_arena_size kw = None ->
   spatial_occupancy time position speed kw =
   Err (if (Nat.eqb (length (p_rows position)) 1
            || Nat.eqb (length (p_rows position)) 2)
           && Nat.eqb (nd_ndim speed) 1
           && Nat.eqb (length (nd_flat speed)) (p_ncols position)
        then KeyError else ValueError)).
Proof.
  split.
  - intros Hs. unfold spatial_occupancy, occupancy_histogram, raise_if.
    destruct (negb _); [reflexivity |].
    destruct Hs as [Hs | Hs].
    + rewrite (proj2 (Nat.eqb_neq _ _) Hs). reflexivity.
    + destruct (negb (Nat.eqb (nd_ndim speed) 1)); [reflexivity |].
      rewrite (proj2 (Nat.eqb_neq _ _) Hs). reflexivity.
  - intros Ha. unfold spatial_occupancy, occupancy_histogram, raise_if.
    rewrite Ha.
    destruct (Nat.eqb (length (p_rows position)) 1),
             (Nat.eqb (length (p_rows position)) 2),
             (Nat.eqb (nd_ndim speed) 1),
             (Nat.eqb (length (nd_flat speed)) (p_ncols position));
      reflexivity.
Qed.

Lemma limits_eq_none_ndarray (l : list Q) :
  (2 <= length l)%nat -> limits_eq_none (Some (LNdarray l)) = Err ValueError.
Proof. intros H. destruct l as [|a [|b l]]; simpl in *; [lia | lia | reflexivity]. Qed.

(** C10.  [limits] given as an [np.ndarray] of two or more elements passes
    the type check, but [limits == None] is then an element-wise array whose
    truth value raises: [accumulatespatial] never returns a histogram. *)
Theorem accumulatespatial_ndarray_limits_raise (pos : ndarray2) (kw : kwargs)
    (l : list Q) :
  kw_limits kw = Some (LNdarray l) -> (2 <= length l)%nat ->
  forall r, accumulatespatial pos kw <> Ok r.
Proof.
  intros Hl Hlen r H. unfold accumulatespatial in H.
  peel_ok H.
  - unfold limits_2d in Ha3. rewrite Hl, (limits_eq_none_ndarray l Hlen) in Ha3.
    discriminate.
  - unfold limits_1d in Ha2. rewrite Hl, (limits_eq_none_ndarray l Hlen) in Ha2.
    discriminate.
Qed.

Lemma linear_tag_not_square_circle (s : string) :
  py_in s default.shapes_linear = true ->
  py_in s default.shapes_square = false /\ py_in s default.shapes_circle = false.
Proof.
  unfold py_in. intros H. apply existsb_exists in H.
  destruct H as [t [Hin Ht]]. apply String.eqb_eq in Ht. subst t.
  simpl in Hin. destruct Hin as [<- | [<- | [<- | []]]]; split; reflexivity.
Qed.

(** C6 (as the code orders its checks).  With a linear shape tag
    ([str.lower] of it in ["linear"; "line"; "l"]) [spatial_occupancy]
    raises [NotImplementedError] whenever validation, speed filtering,
    histogramming and the frame duration succeed, and otherwise raises the
    error of that earlier step; it never returns.  With a tag in none of the
    vocabularies it behaves the same with a [NotImplementedError] whose
    message contains the tag as given. *)
Theorem spatial_occupancy_linear_and_unknown_shapes (time : list Q)
    (position : ndarray2) (speed : ndarray) (kw : kwargs) :
  let shape := get (kw_arena_shape kw) default.shape in
  (py_in (py_lower shape) default.shapes_linear = true ->
   spatial_occupancy time position speed kw =
   match occupancy_histogram time position speed kw with
   | Ok _ => Err (NotImplementedError linear_msg)
   | Err e => Err e
   end) /\
  (py_in (py_lower shape) default.shapes_square = false ->
   py_in (py_lower shape) default.shapes_circle = false ->
   py_in (py_lower shape) default.shapes_linear = false ->
   spatial_occupancy time position speed kw =
   match occupancy_histogram time position speed kw with
   | Ok _ => Err (NotImplementedError (unknown_shape_msg shape))
   | Err e => Err e
   end /\
   exists pre post, unknown_shape_msg shape = (pre ++ shape ++ post)%string).
Proof.
  cbv zeta. split.
  - intros Hl. destruct (linear_tag_not_square_circle _ Hl) as [Hs Hc].
    unfold spatial_occupancy.
    destruct (occupancy_histogram time position speed kw) as [[[h e] fd] | e];
      [| reflexivity].
    cbv beta iota delta [bind]. rewrite Hs, Hc, Hl. reflexivity.
  - intros Hs Hc Hl. split.
    + unfold spatial_occupancy.
      destruct (occupancy_histogram time position speed kw) as [[[h e] fd] | e];
        [| reflexivity].
      cbv beta iota delta [bind]. rewrite Hs, Hc, Hl. reflexivity.
    + exists "Arena shape '"%string, "' not understood"%string. reflexivity.
Qed.

(** ** Inversion of a successful call *)

Lemma occupancy_histogram_Ok_inv (time : list Q) (position : ndarray2)
    (speed : ndarray) (kw : kwargs) (h : hist_val) (e : edges_val) (fd : Q) :
  occupancy_histogram time position speed kw = Ok (h, e, fd) ->
  np_min (np_diff time) = Ok fd /\ exists pos, accumulatespatial pos kw = Ok (h, e).
Proof.
  intros H. unfold occupancy_histogram in H. peel_ok H.
  injection H as <- <- <-. eauto.
Qed.

Lemma spatial_occupancy_Ok_inv (time : list Q) (position : ndarray2)
    (speed : ndarray) (kw : kwargs) (mm : masked_val) (cov : Q) (e : edges_val) :
  spatial_occupancy time position speed kw = Ok (mm, cov, e) ->
  exists h fd,
    occupancy_histogram time position speed kw = Ok (h, e, fd) /\
    mm = masked_where_map fd h /\
    ((length (hist_flat h) <> 0%nat /\
      cov = Q_of_nat (count_nonzero (hist_flat h)) / Q_of_nat (length (hist_flat h))) \/
     circle_coverage (kw_arena_size kw) (get (kw_bin_width kw) default.bin_width) e
       (count_nonzero (hist_flat h)) = Ok cov).
Proof.
  unfold spatial_occupancy. intros H.
  apply bind_eq_Ok in H. destruct H as [[[h e'] fd] [Hocc H]].
  exists h, fd. cbv beta iota zeta in H.
  destruct (py_in _ default.shapes_square).
  - destruct (length (hist_flat h)) eqn:Hn; [discriminate |].
    injection H as <- <- <-.
    split; [exact Hocc | split; [reflexivity | left; split; [discriminate | reflexivity]]].
  - destruct (py_in _ default.shapes_circle).
    + apply bind_eq_Ok in H. destruct H as [c [Hc H]].
      injection H as <- <- <-. auto.
    + destruct (py_in _ default.shapes_linear); discriminate.
Qed.

Lemma masked_flat_where (fd : Q) (h : hist_val) :
  masked_flat (masked_where_map fd h) = map (masked_bin fd) (hist_flat h).
Proof. destruct h as [l | g]; simpl; [reflexivity | symmetry; apply concat_map]. Qed.

Lemma count_below_threshold (c : nat) :
  Qltb (Q_of_nat c) (1 # 1000) = Nat.eqb c 0.
Proof.
  destruct c as [| c]; [reflexivity |].
  unfold Qltb. rewrite (proj2 (Qle_bool_iff _ _)); [reflexivity |].
  unfold Q_of_nat, Qle. simpl. lia.
Qed.

(** C2 (as the code computes it).  The mask of the returned map is
    [occupancy_map < 0.001] on the frame counts, before the time scaling:
    a bin is masked exactly when its frame count is zero, whatever the
    frame duration.  Each bin's value is its frame count times the frame
    duration [np.min(np.diff(time))]. *)
Theorem spatial_occupancy_mask_is_zero_count (time : list Q)
    (position : ndarray2) (speed : ndarray) (kw : kwargs) (mm : masked_val)
    (cov : Q) (e : edges_val) :
  spatial_occupancy time position speed kw = Ok (mm, cov, e) ->
  exists h fd,
    occupancy_histogram time position speed kw = Ok (h, e, fd) /\
    np_min (np_diff time) = Ok fd /\
    map snd (masked_flat mm) = map (fun c => Nat.eqb c 0) (hist_flat h) /\
    map fst (masked_flat mm) = map (fun c => Q_of_nat c * fd) (hist_flat h).
Proof.
  intros H. destruct (spatial_occupancy_Ok_inv _ _ _ _ _ _ _ H)
    as [h [fd [Hocc [-> _]]]].
  exists h, fd. split; [exact Hocc |].
  split; [exact (proj1 (occupancy_histogram_Ok_inv _ _ _ _ _ _ _ Hocc)) |].
  rewrite masked_flat_where, !map_map. split; [| reflexivity].
  apply map_ext. intros c. apply count_below_threshold.
Qed.

Lemma filter_all_true {A : Type} (f : A -> bool) (l : list A) :
  Forall (fun a => f a = true) l -> filter f l = l.
Proof.
  induction 1 as [| a l Ha _ IH]; simpl; [reflexivity |].
  rewrite Ha, IH. reflexivity.
Qed.

(** C4 (as the code computes it).  Every bin's value is its frame count
    times [np.min(np.diff(time))], the minimum of all consecutive deltas of
    the whole time series; when every delta is positive (strictly
    increasing timestamps) this is the minimum positive delta. *)
Theorem spatial_occupancy_time_scaling (time : list Q) (position : ndarray2)
    (speed : ndarray) (kw : kwargs) (mm : masked_val) (cov : Q) (e : edges_val) :
  spatial_occupancy time position speed kw = Ok (mm, cov, e) ->
  exists h fd,
    occupancy_histogram time position speed kw = Ok (h, e, fd) /\
    np_min (np_diff time) = Ok fd /\
    map fst (masked_flat mm) = map (fun c => Q_of_nat c * fd) (hist_flat h) /\
    (Forall (fun d => 0 < d) (np_diff time) -> spec_frame_duration time = Ok fd).
Proof.
  intros H. destruct (spatial_occupancy_Ok_inv _ _ _ _ _ _ _ H)
    as [h [fd [Hocc [-> _]]]].
  destruct (occupancy_histogram_Ok_inv _ _ _ _ _ _ _ Hocc) as [Hfd _].
  exists h, fd. split; [exact Hocc | split; [exact Hfd | split]].
  - rewrite masked_flat_where, map_map. reflexivity.
  - intros Hpos. unfold spec_frame_duration. rewrite filter_all_true; [exact Hfd |].
    eapply Forall_impl; [| exact Hpos]. intros d Hd. simpl.
    unfold Qltb. destruct (Qle_bool d 0) eqn:E; [| reflexivity].
    apply Qle_bool_iff in E. exfalso. apply (Qlt_not_le _ _ Hd E).
Qed.

(** ** Coverage *)

Lemma count_nonzero_le (l : list nat) : (count_nonzero l <= length l)%nat.
Proof. apply filter_length_le. Qed.

Lemma Q_of_nat_nonneg (n : nat) : 0 <= Q_of_nat n.
Proof. unfold Q_of_nat. change 0 with (inject_Z 0). rewrite <- Zle_Qle. lia. Qed.

Lemma Q_of_nat_le (a b : nat) : (a <= b)%nat -> Q_of_nat a <= Q_of_nat b.
Proof. intros H. unfold Q_of_nat. rewrite <- Zle_Qle. lia. Qed.

Lemma Q_of_nat_pos (n : nat) : n <> 0%nat -> 0 < Q_of_nat n.
Proof. intros H. unfold Q_of_nat. change 0 with (inject_Z 0). rewrite <- Zlt_Qlt. lia. Qed.

Lemma ratio_in_unit (a b : nat) :
  (a <= b)%nat -> b <> 0%nat -> 0 <= Q_of_nat a / Q_of_nat b <= 1.
Proof.
  intros Hab Hb. pose proof (Q_of_nat_pos b Hb) as Hpos. split.
  - apply Qle_shift_div_l; [exact Hpos |].
    pose proof (Q_of_nat_nonneg a). lra.
  - apply Qle_shift_div_r; [exact Hpos |].
    pose proof (Q_of_nat_le a b Hab). lra.
Qed.

Lemma py_min_one_counts_in_unit (a b : nat) :
  0 <= py_min_one (np_div_counts a b) <= 1.
Proof.
  destruct b as [| b].
  - destruct a; simpl; lra.
  - cbn [np_div_counts py_min_one]. unfold Qltb.
    destruct (Qle_bool 1 (Q_of_nat a / Q_of_nat (S b))) eqn:E; simpl; [lra |].
    split.
    + apply Qle_shift_div_l; [apply Q_of_nat_pos; discriminate |].
      pose proof (Q_of_nat_nonneg a). lra.
    + apply Qlt_le_weak, Qnot_le_lt. intros Hle.
      apply Qle_bool_iff in Hle. congruence.
Qed.

Lemma circle_coverage_Ok (arena_size : option arena_val) (bin_width : Q)
    (e : edges_val) (nonzero : nat) (cov : Q) :
  circle_coverage arena_size bin_width e nonzero = Ok cov ->
  exists n, cov = py_min_one (np_div_counts nonzero n).
Proof.
  unfold circle_coverage. intros H. peel_ok H.
  injection H as <-. eauto.
Qed.

(** C5.  Whenever [spatial_occupancy] returns, its coverage lies in
    [[0, 1]], for the square and the circular shape tags alike. *)
Theorem spatial_occupancy_coverage_in_unit (time : list Q) (position : ndarray2)
    (speed : ndarray) (kw : kwargs) (mm : masked_val) (cov : Q) (e : edges_val) :
  spatial_occupancy time position speed kw = Ok (mm, cov, e) ->
  0 <= cov <= 1.
Proof.
  intros H. destruct (spatial_occupancy_Ok_inv _ _ _ _ _ _ _ H)
    as [h [fd [_ [_ [[Hn ->] | Hc]]]]].
  - apply ratio_in_unit; [apply count_nonzero_le | exact Hn].
  - destruct (circle_coverage_Ok _ _ _ _ _ Hc) as [n ->].
    apply py_min_one_counts_in_unit.
Qed.

(** ** Bin edges *)

Lemma length_linspace (lo hi : Q) (n : nat) : length (linspace lo hi n) = S n.
Proof. unfold linspace. rewrite length_app, length_map, length_seq. simpl. lia. Qed.

Lemma nth_linspace_lt (lo hi : Q) (n i : nat) :
  (i < n)%nat ->
  nth i (linspace lo hi n) 0 = lo + Q_of_nat i * ((hi - lo) / Q_of_nat n).
Proof.
  intros Hi. unfold linspace. cbv zeta.
  set (f := fun k => lo + Q_of_nat k * ((hi - lo) / Q_of_nat n)).
  rewrite app_nth1 by (rewrite length_map, length_seq; exact Hi).
  rewrite (nth_indep _ 0 (f 0%nat)) by (rewrite length_map, length_seq; exact Hi).
  rewrite map_nth, seq_nth by exact Hi. reflexivity.
Qed.

Lemma nth_linspace_last (lo hi : Q) (n : nat) : nth n (linspace lo hi n) 0 = hi.
Proof.
  unfold linspace. cbv zeta. rewrite app_nth2 by (rewrite length_map, length_seq; lia).
  rewrite length_map, length_seq, Nat.sub_diag. reflexivity.
Qed.

Lemma Q_of_nat_succ (i : nat) : Q_of_nat (S i) == Q_of_nat i + 1.
Proof. unfold Q_of_nat. rewrite Nat2Z.inj_succ, <- Z.add_1_r, inject_Z_plus. reflexivity. Qed.

Lemma linspace_increasing (lo hi : Q) (n : nat) :
  lo < hi -> n <> 0%nat -> strictly_increasing (linspace lo hi n).
Proof.
  intros Hlt Hn i Hi. rewrite length_linspace in Hi.
  set (step := (hi - lo) / Q_of_nat n).
  assert (Hstep : 0 < step).
  { unfold step. apply Qlt_shift_div_l; [apply Q_of_nat_pos; exact Hn | lra]. }
  assert (Hs : Q_of_nat (S i) * step == Q_of_nat i * step + step).
  { rewrite Q_of_nat_succ. ring. }
  rewrite nth_linspace_lt by lia. fold step.
  destruct (Nat.eq_dec (S i) n) as [Heq | Hne].
  - rewrite Heq, nth_linspace_last.
    assert (Hn' : Q_of_nat n * step == hi - lo).
    { unfold step. apply Qmult_div_r. intros Hz.
      pose proof (Q_of_nat_pos n Hn). lra. }
    rewrite <- Heq in Hn'. lra.
  - rewrite nth_linspace_lt by lia. fold step. lra.
Qed.

Lemma get_outer_edges_lt (r : Q * Q) (lo hi : Q) :
  get_outer_edges r = Ok (lo, hi) -> lo < hi.
Proof.
  destruct r as [a b]. unfold get_outer_edges, Qltb, Qeqb.
  destruct (Qle_bool a b) eqn:Hab; simpl; [| discriminate].
  apply Qle_bool_iff in Hab.
  destruct (Qeq_bool a b) eqn:Heq; intros H; injection H as <- <-.
  - apply Qeq_bool_iff in Heq. lra.
  - apply Qle_lteq in Hab. destruct Hab as [Hab | Hab]; [exact Hab |].
    apply Qeq_bool_iff in Hab. congruence.
Qed.

Lemma int_bins_ceil (a bin_width : Q) (n : nat) :
  int_bins (np_ceil_div a bin_width) = Ok n ->
  Z.of_nat n = Qceiling (a / bin_width) /\ n <> 0%nat.
Proof.
  unfold np_ceil_div. destruct (Qeqb bin_width 0); [discriminate |].
  unfold int_bins, Qltb.
  destruct (Qle_bool 1 (inject_Z (Qceiling (a / bin_width)))) eqn:E;
    cbv beta iota delta [negb]; [| discriminate].
  intros H. injection H as <-. apply Qle_bool_iff in E.
  change 1 with (inject_Z 1) in E. rewrite <- Zle_Qle in E.
  rewrite Z.div_1_r. split; lia.
Qed.

Lemma histogram_float (a : list Q) (f : npfloat) (range : Q * Q) :
  histogram a (BinsFloat f) range = Err TypeError.
Proof. reflexivity. Qed.

Lemma histogram2d_edges (x y : list Q) (bins : list npfloat)
    (range : (Q * Q) * (Q * Q)) (hist : list (list nat)) (xe ye : list Q) :
  histogram2d x y bins range = Ok (hist, xe, ye) ->
  exists bx bY nx ny xl xh yl yh,
    bins = [bx; bY] /\ int_bins bx = Ok nx /\ int_bins bY = Ok ny /\
    get_outer_edges (fst range) = Ok (xl, xh) /\
    get_outer_edges (snd range) = Ok (yl, yh) /\
    xe = linspace xl xh nx /\ ye = linspace yl yh ny.
Proof.
  unfold histogram2d. intros H.
  apply raise_if_eq_Ok in H as [_ H].
  destruct bins as [| bx [| bY [| b3 bins]]]; try discriminate.
  apply bind_eq_Ok in H as (nx & Hnx & H).
  apply bind_eq_Ok in H as ([xl xh] & Hx & H).
  apply bind_eq_Ok in H as (ny & Hny & H).
  apply bind_eq_Ok in H as ([yl yh] & Hy & H).
  injection H as _ <- <-. exists bx, bY, nx, ny, xl, xh, yl, yh. auto 10.
Qed.

Lemma validatekeyword_shape (kwv : option arena_val) (dims : nat)
    (arena : arena_norm) (is_2d : bool) :
  validatekeyword__arena_size kwv dims = Ok (arena, is_2d) ->
  match arena with Arena1 _ => is_2d = false | Arena2 _ _ => is_2d = true end.
Proof.
  destruct kwv as [[q | l | q] |]; [| destruct l as [| a1 [| a2 [| a3 l]]] | |];
    simpl; repeat destruct (Nat.eqb _ _); intros H; try discriminate;
    injection H as <- <-; reflexivity.
Qed.

(** The edges of one axis: [ceil(extent / bin_width) + 1] strictly
    increasing values. *)
Definition axis_edges_ok (edges : list Q) (extent bin_width : Q) : Prop :=
  Z.of_nat (length edges) = (Qceiling (extent / bin_width) + 1)%Z /\
  strictly_increasing edges.

Lemma axis_edges_linspace (extent bin_width : Q) (n : nat) (r : Q * Q) (lo hi : Q) :
  int_bins (np_ceil_div extent bin_width) = Ok n ->
  get_outer_edges r = Ok (lo, hi) ->
  axis_edges_ok (linspace lo hi n) extent bin_width.
Proof.
  intros Hn Hr. destruct (int_bins_ceil _ _ _ Hn) as [Hc Hnz]. split.
  - rewrite length_linspace, Nat2Z.inj_succ, Hc. lia.
  - apply linspace_increasing; [exact (get_outer_edges_lt _ _ _ Hr) | exact Hnz].
Qed.

(** C8.  Whenever [accumulatespatial] returns, each axis has
    [ceil(extent / bin_width)] bins, [extent] being that axis's normalised
    arena size, and its edge array has that many bins plus one strictly
    increasing values.  In 2-D the edges are returned as [[y_edges, x_edges]],
    matching the transposed histogram. *)
Theorem accumulatespatial_bin_edges (pos : ndarray2) (kw : kwargs)
    (h : hist_val) (e : edges_val) :
  accumulatespatial pos kw = Ok (h, e) ->
  let bin_width := get (kw_bin_width kw) default.bin_width in
  exists arena is_2d,
    validatekeyword__arena_size (kw_arena_size kw) (length (p_rows pos))
      = Ok (arena, is_2d) /\
    match arena, e with
    | Arena1 a, Edges1 edges => axis_edges_ok edges a bin_width
    | Arena2 ax ay, Edges2 yedges xedges =>
        axis_edges_ok xedges ax bin_width /\ axis_edges_ok yedges ay bin_width
    | _, _ => False
    end.
Proof.
  intros H. cbv zeta. unfold accumulatespatial in H.
  apply raise_if_eq_Ok in H as [_ H]. cbv zeta in H.
  apply raise_if_eq_Ok in H as [_ H].
  apply bind_eq_Ok in H as ([arena is_2d] & Hv & H).
  exists arena, is_2d. split; [exact Hv |].
  pose proof (validatekeyword_shape _ _ _ _ Hv) as Hs.
  apply bind_eq_Ok in H as (nb & Hnb & H).
  apply bind_eq_Ok in H as (x & Hx & H).
  destruct arena as [a | ax ay]; subst is_2d; cbv beta iota in H.
  - apply bind_eq_Ok in H as (lims & Hl & H).
    apply bind_eq_Ok in H as ([hist edges] & Hh & H).
    rewrite histogram_float in Hh. discriminate Hh.
  - apply bind_eq_Ok in H as (y & Hy & H).
    apply bind_eq_Ok in H as (lims & Hl & H).
    apply bind_eq_Ok in H as (ix & Hix & H).
    apply bind_eq_Ok in H as (iy & Hiy & H).
    apply bind_eq_Ok in H as ([[hist xe] ye] & Hh & H). injection H as _ <-.
    unfold num_bins_of in Hnb. injection Hnb as <-.
    destruct (histogram2d_edges _ _ _ _ _ _ _ Hh)
      as (bx & bY & nx & ny & xl & xh & yl & yh & Hb & Hnx & Hny & Hrx & Hry & -> & ->).
    injection Hb as <- <-.
    split; eapply axis_edges_linspace; eassumption.
Qed.

(** ** The in-range filter of [accumulatespatial] *)

Lemma bool_index_combine_fst (x y : list Q) (f : Q * Q -> bool) :
  length x = length y ->
  bool_index x (map f (combine x y)) = Ok (map fst (filter f (combine x y))).
Proof.
  intros Hlen. unfold bool_index.
  rewrite length_map, length_combine, Hlen, Nat.min_id, <- Hlen, Nat.eqb_refl.
  f_equal. revert y Hlen. induction x as [| a x IH]; intros [| b y] Hlen;
    simpl in *; try discriminate; [reflexivity |].
  destruct (f (a, b)); simpl; rewrite IH by lia; reflexivity.
Qed.

Lemma bool_index_combine_snd (x y : list Q) (f : Q * Q -> bool) :
  length x = length y ->
  bool_index y (map f (combine x y)) = Ok (map snd (filter f (combine x y))).
Proof.
  intros Hlen. unfold bool_index.
  rewrite length_map, length_combine, Hlen, Nat.min_id, Nat.eqb_refl.
  f_equal. revert y Hlen. induction x as [| a x IH]; intros [| b y] Hlen;
    simpl in *; try discriminate; [reflexivity |].
  destruct (f (a, b)); simpl; rewrite IH by lia; reflexivity.
Qed.

Lemma validatekeyword_2d (kwv : option arena_val) (arena : arena_norm)
    (is_2d : bool) :
  validatekeyword__arena_size kwv 2 = Ok (arena, is_2d) -> is_2d = true.
Proof.
  destruct kwv as [[q | l | q] |]; [| destruct l as [| a1 [| a2 [| a3 l]]] | |];
    simpl; intros H; try discriminate; injection H as _ <-; reflexivity.
Qed.

Lemma limits_2d_explicit (x y : list Q) (limits : option limits_val) :
  limits_eq_none limits = Ok false ->
  limits_2d x y limits =
  (let l := limits_elems limits in
   if negb (Nat.eqb (length l) 4) then Err ValueError
   else Ok ((nth 0 l 0, nth 1 l 0), (nth 2 l 0, nth 3 l 0))).
Proof. intros H. unfold limits_2d. rewrite H. reflexivity. Qed.

Lemma combine_fst_snd {A B : Type} (l : list (A * B)) :
  combine (map fst l) (map snd l) = l.
Proof. induction l as [| [a b] l IH]; simpl; [reflexivity | rewrite IH; reflexivity]. Qed.

Lemma filter_filter_same {A : Type} (f : A -> bool) (l : list A) :
  filter f (filter f l) = filter f l.
Proof.
  induction l as [| a l IH]; simpl; [reflexivity |].
  destruct (f a) eqn:E; simpl; [rewrite E |]; rewrite IH; reflexivity.
Qed.

Lemma limits_2d_type_ok (x y : list Q) (limits : option limits_val)
    (lims : (Q * Q) * (Q * Q)) :
  limits_2d x y limits = Ok lims -> limits_type_bad limits = false.
Proof. destruct limits as [[l | l | l |] |]; try reflexivity. discriminate. Qed.

(** C3 (2-D case, as the code does it).  The 2-D histogram is computed from
    the in-range observations only, over the declared range.  For every 2-D
    input whose limits (given, or [nanmin]/[nanmax] of each row when
    absent) are [((x_min, x_max), (y_min, y_max))], the call returns what it
    returns on the observations inside [[x_min, x_max) x [y_min, y_max)]
    alone, with these limits given explicitly.  With explicit limits, two
    position arrays with the same in-range observations give the same
    histogram and edges, whatever their out-of-range observations (samples
    on an upper limit included). *)
Theorem accumulatespatial_2d_in_range_subset (x1 y1 x2 y2 : list Q) (n1 n2 : nat)
    (kw : kwargs) :
  length x1 = length y1 ->
  (forall xl xh yl yh,
     limits_2d x1 y1 (kw_limits kw) = Ok ((xl, xh), (yl, yh)) ->
     let kept := filter (in_box ((xl, xh), (yl, yh))) (combine x1 y1) in
     accumulatespatial (mk_ndarray2 [x1; y1] n1) kw =
     accumulatespatial (mk_ndarray2 [map fst kept; map snd kept] (length kept))
       (with_limits kw (LTuple [xl; xh; yl; yh]))) /\
  (length x2 = length y2 ->
   limits_eq_none (kw_limits kw) = Ok false ->
   let l := limits_elems (kw_limits kw) in
   let box := ((nth 0 l 0, nth 1 l 0), (nth 2 l 0, nth 3 l 0)) in
   filter (in_box box) (combine x1 y1) = filter (in_box box) (combine x2 y2) ->
   accumulatespatial (mk_ndarray2 [x1; y1] n1) kw =
   accumulatespatial (mk_ndarray2 [x2; y2] n2) kw).
Proof.
  intros H1. split.
  - intros xl xh yl yh Hl. cbv zeta.
    set (kept := filter (in_box ((xl, xh), (yl, yh))) (combine x1 y1)).
    assert (Hk : length (map fst kept) = length (map snd kept))
      by (rewrite !length_map; reflexivity).
    unfold accumulatespatial, with_limits. cbn [p_rows length Nat.eqb orb negb raise_if].
    cbv zeta. cbn [kw_limits kw_arena_size kw_bin_width].
    rewrite (limits_2d_type_ok _ _ _ _ Hl). cbn [limits_type_bad raise_if].
    destruct (validatekeyword__arena_size (kw_arena_size kw) 2)
      as [[arena is_2d] | e] eqn:Hv; [| reflexivity]; cbn [bind].
    replace is_2d with true by (symmetry; exact (validatekeyword_2d _ _ _ Hv)).
    destruct (num_bins_of arena (get (kw_bin_width kw) default.bin_width))
      as [nb | e]; [| reflexivity]. cbn [bind row_at nth_error p_rows].
    rewrite Hl.
    replace (limits_2d (map fst kept) (map snd kept) (Some (LTuple [xl; xh; yl; yh])))
      with (Ok ((xl, xh), (yl, yh)) : result ((Q * Q) * (Q * Q))) by reflexivity.
    cbn [bind].
    rewrite (bool_index_combine_fst x1 y1), (bool_index_combine_snd x1 y1) by exact H1.
    rewrite (bool_index_combine_fst (map fst kept)), (bool_index_combine_snd (map fst kept))
      by exact Hk.
    rewrite combine_fst_snd. unfold kept. rewrite filter_filter_same. reflexivity.
  - intros H2 Hnone. cbv zeta. intros Hf.
    unfold accumulatespatial. cbn [p_rows length Nat.eqb orb negb raise_if].
    destruct (limits_type_bad (kw_limits kw)); [reflexivity |].
    destruct (validatekeyword__arena_size (kw_arena_size kw) 2)
      as [[arena is_2d] | e] eqn:Hv; [| reflexivity]; cbn [bind].
    replace is_2d with true by (symmetry; exact (validatekeyword_2d _ _ _ Hv)).
    destruct (num_bins_of arena (get (kw_bin_width kw) default.bin_width))
      as [nb | e]; [| reflexivity]. unfold raise_if. cbn [bind row_at nth_error p_rows].
    rewrite !limits_2d_explicit by exact Hnone. cbv zeta.
    destruct (negb (Nat.eqb (length (limits_elems (kw_limits kw))) 4));
      [reflexivity |]. cbn [bind].
    rewrite (bool_index_combine_fst x1 y1), (bool_index_combine_snd x1 y1) by exact H1.
    rewrite (bool_index_combine_fst x2 y2), (bool_index_combine_snd x2 y2) by exact H2.
    cbn [bind]. rewrite Hf. reflexivity.
Qed.

(** * Further properties of [accumulatespatial] and [spatial_occupancy] *)

(** ** Sums of counts *)

Section Counting.
Local Open Scope nat_scope.

Lemma list_sum_map_add {A : Type} (f g : A -> nat) (l : list A) :
  list_sum (map (fun a => f a + g a) l) = list_sum (map f l) + list_sum (map g l).
Proof. induction l as [| a l IH]; simpl; [reflexivity | rewrite IH; lia]. Qed.

Lemma list_sum_map_ext {A : Type} (f g : A -> nat) (l : list A) :
  (forall a, In a l -> f a = g a) -> list_sum (map f l) = list_sum (map g l).
Proof. intros H. f_equal. apply map_ext_in. exact H. Qed.

Lemma list_sum_map_zero {A : Type} (l : list A) :
  list_sum (map (fun _ => 0) l) = 0.
Proof. induction l; simpl; auto. Qed.

Lemma list_sum_concat (g : list (list nat)) :
  list_sum (concat g) = list_sum (map list_sum g).
Proof. induction g as [| r g IH]; simpl; [reflexivity | rewrite list_sum_app, IH; reflexivity]. Qed.

Lemma sum_seq_indicator (a s n : nat) :
  list_sum (map (fun b => if Nat.eqb b a then 1 else 0) (seq s n)) =
  if (s <=? a) && (a <? s + n) then 1 else 0.
Proof.
  revert s. induction n as [| n IH]; intros s; simpl.
  - destruct (Nat.leb_spec s a), (Nat.ltb_spec a (s + 0)); simpl; lia.
  - rewrite IH.
    destruct (Nat.eqb_spec s a), (Nat.leb_spec s a), (Nat.ltb_spec a (s + S n)),
      (Nat.leb_spec (S s) a), (Nat.ltb_spec a (S s + n)); simpl; lia.
Qed.

Lemma sum_seq_S_indicator (a n : nat) :
  1 <= a <= n -> list_sum (map (fun i => if Nat.eqb a (S i) then 1 else 0) (seq 0 n)) = 1.
Proof.
  intros Ha.
  rewrite <- (map_map S (fun b => if Nat.eqb a b then 1 else 0)), seq_shift.
  rewrite (list_sum_map_ext _ (fun b => if Nat.eqb b a then 1 else 0))
    by (intros b _; rewrite Nat.eqb_sym; reflexivity).
  rewrite sum_seq_indicator.
  destruct (Nat.leb_spec 1 a), (Nat.ltb_spec a (1 + n)); simpl; lia.
Qed.

Lemma count_cell_cons (c : nat * nat) (cells : list (nat * nat)) (i j : nat) :
  count_cell (c :: cells) i j =
  (if Nat.eqb (fst c) i && Nat.eqb (snd c) j then 1 else 0) + count_cell cells i j.
Proof. unfold count_cell. simpl. destruct (_ && _); reflexivity. Qed.

Lemma sum_count_cell (nx ny : nat) (cells : list (nat * nat)) :
  Forall (fun c => 1 <= fst c <= nx /\ 1 <= snd c <= ny) cells ->
  list_sum (map (fun j => list_sum (map (fun i => count_cell cells (S i) (S j)) (seq 0 nx)))
                (seq 0 ny)) = length cells.
Proof.
  induction 1 as [| c cells [Hx Hy] _ IH].
  - rewrite (list_sum_map_ext _ (fun _ => 0)); [apply list_sum_map_zero |].
    intros j _. apply list_sum_map_zero.
  - assert (Hin : forall j,
      list_sum (map (fun i => if Nat.eqb (fst c) (S i) && Nat.eqb (snd c) (S j) then 1 else 0)
                    (seq 0 nx)) = if Nat.eqb (snd c) (S j) then 1 else 0).
    { intros j. destruct (Nat.eqb (snd c) (S j)).
      - rewrite (list_sum_map_ext _ (fun i => if Nat.eqb (fst c) (S i) then 1 else 0))
          by (intros; rewrite andb_true_r; reflexivity).
        apply sum_seq_S_indicator. exact Hx.
      - rewrite (list_sum_map_ext _ (fun _ => 0))
          by (intros; rewrite andb_false_r; reflexivity).
        apply list_sum_map_zero. }
    rewrite (list_sum_map_ext _ (fun j => (if Nat.eqb (snd c) (S j) then 1 else 0) +
               list_sum (map (fun i => count_cell cells (S i) (S j)) (seq 0 nx)))).
    + rewrite list_sum_map_add, IH, sum_seq_S_indicator by exact Hy. reflexivity.
    + intros j _.
      rewrite (list_sum_map_ext _ (fun i =>
                 (if Nat.eqb (fst c) (S i) && Nat.eqb (snd c) (S j) then 1 else 0) +
                 count_cell cells (S i) (S j))) by (intros; apply count_cell_cons).
      rewrite list_sum_map_add, Hin. reflexivity.
Qed.

Lemma nth_map_seq0 (G : nat -> nat) (n j : nat) :
  j < n -> nth j (map G (seq 0 n)) O = G j.
Proof.
  intros H. rewrite (nth_indep _ O (G O)) by (rewrite length_map, length_seq; exact H).
  rewrite map_nth, seq_nth by exact H. reflexivity.
Qed.

Lemma np_transpose_grid (F : nat -> nat -> nat) (nx ny : nat) :
  nx <> 0 ->
  np_transpose (map (fun i => map (fun j => F i j) (seq 0 ny)) (seq 0 nx)) =
  map (fun j => map (fun i => F i j) (seq 0 nx)) (seq 0 ny).
Proof.
  intros Hnx. destruct nx as [| nx']; [contradiction |].
  change (seq 0 (S nx')) with (0 :: seq 1 nx').
  unfold np_transpose. cbn [map].
  rewrite length_map, length_seq.
  apply map_ext_in. intros j Hj. apply in_seq in Hj.
  cbn [map]. f_equal.
  - apply nth_map_seq0. lia.
  - rewrite map_map. apply map_ext. intros i. apply nth_map_seq0. lia.
Qed.

Lemma filter_length_lt {A : Type} (f : A -> bool) (l : list A) (a : A) :
  In a l -> f a = false -> length (filter f l) < length l.
Proof.
  induction l as [| b l IH]; simpl; [contradiction |].
  intros [<- | Hin] Hf.
  - rewrite Hf. pose proof (filter_length_le f l). lia.
  - destruct (f b); simpl; [| pose proof (filter_length_le f l); lia].
    specialize (IH Hin Hf). lia.
Qed.

Lemma filter_length_eq_Forall {A : Type} (f : A -> bool) (l : list A) :
  length (filter f l) = length l <-> Forall (fun a => f a = true) l.
Proof.
  split.
  - induction l as [| a l IH]; simpl; intros H; [constructor |].
    destruct (f a) eqn:E.
    + constructor; [exact E | apply IH; simpl in H; lia].
    + pose proof (filter_length_le f l). lia.
  - intros H. rewrite (filter_all_true f l H). reflexivity.
Qed.

Lemma filter_length_zero_Forall {A : Type} (f : A -> bool) (l : list A) :
  length (filter f l) = 0 <-> Forall (fun a => f a = false) l.
Proof.
  split.
  - induction l as [| a l IH]; simpl; intros H; [constructor |].
    destruct (f a) eqn:E; [discriminate |]. constructor; [exact E | apply IH; exact H].
  - induction 1 as [| a l Ha _ IH]; simpl; [reflexivity | rewrite Ha; exact IH].
Qed.

End Counting.

Lemma Qleb_true (a b : Q) : Qleb a b = true <-> a <= b.
Proof. apply Qle_bool_iff. Qed.

Lemma Qltb_true (a b : Q) : Qltb a b = true <-> a < b.
Proof.
  unfold Qltb. split.
  - intros H. apply Qnot_le_lt. intros Hle. apply Qle_bool_iff in Hle.
    rewrite Hle in H. discriminate.
  - intros H. destruct (Qle_bool b a) eqn:E; [| reflexivity].
    apply Qle_bool_iff in E. exfalso. exact (Qlt_not_le _ _ H E).
Qed.

Lemma Qleb_false (a b : Q) : Qleb a b = false <-> b < a.
Proof.
  split.
  - intros H. apply Qnot_le_lt. intros Hle. apply Qleb_true in Hle. congruence.
  - intros H. destruct (Qleb a b) eqn:E; [| reflexivity].
    apply Qleb_true in E. exfalso. exact (Qlt_not_le _ _ H E).
Qed.

Lemma Qltb_false (a b : Q) : Qltb a b = false <-> b <= a.
Proof. unfold Qltb. rewrite negb_false_iff. apply Qle_bool_iff. Qed.

(** ** Edges of [np.linspace] *)

Lemma last_linspace (lo hi : Q) (n : nat) : last (linspace lo hi n) 0 = hi.
Proof. unfold linspace. apply last_last. Qed.

Lemma nth_linspace_0 (lo hi : Q) (n : nat) : n <> 0%nat -> nth 0 (linspace lo hi n) 0 == lo.
Proof.
  intros Hn. rewrite nth_linspace_lt by lia. unfold Q_of_nat. simpl. ring.
Qed.

(** The edge of index [k <= n], as a rational: [lo + k * step]. *)
Lemma nth_linspace_le (lo hi : Q) (n k : nat) :
  n <> 0%nat -> (k <= n)%nat ->
  nth k (linspace lo hi n) 0 == lo + Q_of_nat k * ((hi - lo) / Q_of_nat n).
Proof.
  intros Hn Hk. destruct (Nat.eq_dec k n) as [-> | Hne].
  - rewrite nth_linspace_last. field.
    intros Hz. pose proof (Q_of_nat_pos n Hn). lra.
  - rewrite nth_linspace_lt by lia. reflexivity.
Qed.

Lemma linspace_width (lo hi : Q) (n i : nat) :
  n <> 0%nat -> (i < n)%nat ->
  nth (S i) (linspace lo hi n) 0 - nth i (linspace lo hi n) 0 == (hi - lo) / Q_of_nat n.
Proof.
  intros Hn Hi. rewrite !nth_linspace_le by lia. rewrite Q_of_nat_succ. ring.
Qed.

Lemma get_outer_edges_lt_id (a b : Q) : a < b -> get_outer_edges (a, b) = Ok (a, b).
Proof.
  intros H. unfold get_outer_edges.
  replace (Qltb b a) with false by (symmetry; apply Qltb_false; lra).
  replace (Qeqb a b) with false; [reflexivity |].
  symmetry. unfold Qeqb. destruct (Qeq_bool a b) eqn:E; [| reflexivity].
  apply Qeq_bool_iff in E. lra.
Qed.

Lemma int_bins_pos (b : npfloat) (n : nat) : int_bins b = Ok n -> n <> 0%nat.
Proof.
  destruct b as [q |]; [| discriminate]. unfold int_bins.
  destruct (Qltb q 1) eqn:E; [discriminate |]. intros H. injection H as <-.
  apply Qltb_false in E. apply Qfloor_resp_le in E.
  change (Qfloor 1) with 1%Z in E. lia.
Qed.

(** ** Bin index of a sample *)

(** Every sample between the first and the last edge lies in some bin. *)
Lemma exists_bin (f : nat -> Q) (m : nat) (v : Q) :
  f 0%nat <= v -> v < f m -> exists k, (k < m)%nat /\ f k <= v /\ v < f (S k).
Proof.
  intros H0. induction m as [| m IH]; intros Hm; [exfalso; lra |].
  destruct (Qlt_le_dec v (f m)) as [Hv | Hv].
  - destruct (IH Hv) as (k & Hk & H1 & H2). exists k. split; [lia | auto].
  - exists m. split; [lia | auto].
Qed.

(** [np.searchsorted(edges, v, side='right')] on a strictly increasing
    array: [k + 1] for a value between the edges [k] and [k + 1]. *)
Lemma searchsorted_right_sorted (l : list Q) (v : Q) (k : nat) :
  strictly_increasing l -> (S k < length l)%nat ->
  nth k l 0 <= v -> v < nth (S k) l 0 -> searchsorted_right l v = S k.
Proof.
  intros Hinc Hk H1 H2.
  assert (Hmono : forall i j, (i <= j < length l)%nat -> nth i l 0 <= nth j l 0).
  { intros i j Hij. induction j as [| j IH].
    - replace i with 0%nat by lia. apply Qle_refl.
    - destruct (Nat.eq_dec i (S j)) as [-> | Hne]; [apply Qle_refl |].
      apply Qle_trans with (nth j l 0); [apply IH; lia |].
      apply Qlt_le_weak, Hinc. lia. }
  unfold searchsorted_right. rewrite <- (firstn_skipn (S k) l), filter_app, length_app.
  rewrite filter_all_true.
  2:{ apply Forall_forall. intros e He. apply (In_nth _ _ 0) in He.
      destruct He as (i & Hi & <-). rewrite length_firstn in Hi.
      rewrite nth_firstn. replace (i <? S k)%nat with true by (symmetry; apply Nat.ltb_lt; lia).
      apply Qleb_true. apply Qle_trans with (nth k l 0); [apply Hmono; lia | exact H1]. }
  rewrite (proj2 (filter_length_zero_Forall _ _)).
  2:{ apply Forall_forall. intros e He. apply (In_nth _ _ 0) in He.
      destruct He as (i & Hi & <-). rewrite length_skipn in Hi. rewrite nth_skipn.
      apply Qleb_false. apply Qlt_le_trans with (nth (S k) l 0); [exact H2 | apply Hmono; lia]. }
  rewrite length_firstn. lia.
Qed.

(** [histogramdd]'s cell index along one axis, for a sample in
    [[lo, hi)]: [k + 1] exactly when the sample lies in [[e_k, e_(k+1))]. *)
Lemma dd_index_bin (lo hi : Q) (n k : nat) (v : Q) :
  lo < hi -> n <> 0%nat -> (k < n)%nat -> lo <= v -> v < hi ->
  dd_index (linspace lo hi n) v = S k <->
  nth k (linspace lo hi n) 0 <= v /\ v < nth (S k) (linspace lo hi n) 0.
Proof.
  intros Hlt Hn Hk H1 H2.
  pose proof (linspace_increasing lo hi n Hlt Hn) as Hinc.
  assert (Hdd : forall j, (j < n)%nat ->
            nth j (linspace lo hi n) 0 <= v -> v < nth (S j) (linspace lo hi n) 0 ->
            dd_index (linspace lo hi n) v = S j).
  { intros j Hj Hj1 Hj2. unfold dd_index. rewrite last_linspace.
    replace (Qeqb v hi) with false.
    - apply searchsorted_right_sorted; [exact Hinc | rewrite length_linspace; lia | exact Hj1 | exact Hj2].
    - symmetry. unfold Qeqb. destruct (Qeq_bool v hi) eqn:E; [| reflexivity].
      apply Qeq_bool_iff in E. lra. }
  split.
  - intros Heq.
    destruct (exists_bin (fun j => nth j (linspace lo hi n) 0) n v)
      as (j & Hj & Hj1 & Hj2).
    + rewrite nth_linspace_0 by exact Hn. exact H1.
    + rewrite nth_linspace_last. exact H2.
    + rewrite (Hdd j Hj Hj1 Hj2) in Heq. injection Heq as ->. auto.
  - intros [Hk1 Hk2]. exact (Hdd k Hk Hk1 Hk2).
Qed.

Lemma length_filter_map {A B : Type} (f : B -> bool) (g : A -> B) (l : list A) :
  length (filter f (map g l)) = length (filter (fun a => f (g a)) l).
Proof. induction l as [| a l IH]; simpl; [reflexivity |]. destruct (f (g a)); simpl; auto. Qed.

Lemma filter_filter_and {A : Type} (f g : A -> bool) (l : list A) :
  filter f (filter g l) = filter (fun a => g a && f a) l.
Proof.
  induction l as [| a l IH]; simpl; [reflexivity |].
  destruct (g a); simpl; [destruct (f a) |]; rewrite IH; reflexivity.
Qed.

Lemma combine_map_fst_snd {A B C D : Type} (f : A -> C) (g : B -> D) (l : list (A * B)) :
  combine (map f (map fst l)) (map g (map snd l)) = map (fun p => (f (fst p), g (snd p))) l.
Proof. induction l as [| [a b] l IH]; simpl; [reflexivity | rewrite IH; reflexivity]. Qed.

Lemma bool_index_length (a : list Q) (m : list bool) (r : list Q) :
  bool_index a m = Ok r -> length a = length m.
Proof.
  unfold bool_index. destruct (Nat.eqb_spec (length a) (length m)); [auto | discriminate].
Qed.

Lemma histogram2d_inv (x y : list Q) (bins : list npfloat)
    (range : (Q * Q) * (Q * Q)) (hist : list (list nat)) (xe ye : list Q) :
  histogram2d x y bins range = Ok (hist, xe, ye) ->
  exists nx ny xl xh yl yh,
    (exists bx bY, bins = [bx; bY] /\ int_bins bx = Ok nx /\ int_bins bY = Ok ny) /\
    get_outer_edges (fst range) = Ok (xl, xh) /\
    get_outer_edges (snd range) = Ok (yl, yh) /\
    xe = linspace xl xh nx /\ ye = linspace yl yh ny /\
    hist = map (fun i => map (fun j =>
             count_cell (combine (map (dd_index xe) x) (map (dd_index ye) y)) (S i) (S j))
             (seq 0 ny)) (seq 0 nx).
Proof.
  unfold histogram2d. intros H.
  apply raise_if_eq_Ok in H as [_ H].
  destruct bins as [| bx [| bY [| b3 bins]]]; try discriminate.
  apply bind_eq_Ok in H as (nx & Hnx & H).
  apply bind_eq_Ok in H as ([xl xh] & Hx & H).
  apply bind_eq_Ok in H as (ny & Hny & H).
  apply bind_eq_Ok in H as ([yl yh] & Hy & H).
  injection H as <- <- <-.
  exists nx, ny, xl, xh, yl, yh. split; [eauto | auto 6].
Qed.

Lemma accumulatespatial_2d_inv (x y : list Q) (n : nat) (kw : kwargs)
    (h : list (list nat)) (e : edges_val) :
  accumulatespatial (mk_ndarray2 [x; y] n) kw = Ok (Hist2 h, e) ->
  exists lims nx ny xl xh yl yh,
    limits_2d x y (kw_limits kw) = Ok lims /\ length x = length y /\
    get_outer_edges (fst lims) = Ok (xl, xh) /\ get_outer_edges (snd lims) = Ok (yl, yh) /\
    nx <> 0%nat /\ ny <> 0%nat /\
    e = Edges2 (linspace yl yh ny) (linspace xl xh nx) /\
    h = map (fun j => map (fun i =>
          count_cell (map (fun p => (dd_index (linspace xl xh nx) (fst p),
                                     dd_index (linspace yl yh ny) (snd p)))
                          (filter (in_box lims) (combine x y))) (S i) (S j))
          (seq 0 nx)) (seq 0 ny).
Proof.
  intros H. unfold accumulatespatial in H. cbn [p_rows length] in H.
  apply raise_if_eq_Ok in H as [_ H]. cbv zeta in H.
  apply raise_if_eq_Ok in H as [_ H].
  apply bind_eq_Ok in H as ([arena is_2d] & Hv & H).
  rewrite (validatekeyword_2d _ _ _ Hv) in H.
  apply bind_eq_Ok in H as (nb & Hnb & H).
  apply bind_eq_Ok in H as (x' & Hx & H). cbn in Hx. injection Hx as <-.
  apply bind_eq_Ok in H as (y' & Hy & H). cbn in Hy. injection Hy as <-.
  apply bind_eq_Ok in H as (lims & Hl & H). cbv zeta in H.
  apply bind_eq_Ok in H as (ix & Hix & H).
  apply bind_eq_Ok in H as (iy & Hiy & H).
  apply bind_eq_Ok in H as ([[hist xe] ye] & Hh & H). injection H as <- <-.
  assert (Hlen : length x = length y).
  { pose proof (bool_index_length _ _ _ Hix) as H1.
    pose proof (bool_index_length _ _ _ Hiy) as H2.
    rewrite length_map, length_combine in H1, H2. lia. }
  rewrite bool_index_combine_fst in Hix by exact Hlen. injection Hix as <-.
  rewrite bool_index_combine_snd in Hiy by exact Hlen. injection Hiy as <-.
  destruct (histogram2d_inv _ _ _ _ _ _ _ Hh)
    as (nx & ny & xl & xh & yl & yh & (bx & bY & _ & Hnx & Hny) & Hrx & Hry & -> & -> & ->).
  rewrite combine_map_fst_snd.
  apply int_bins_pos in Hnx. apply int_bins_pos in Hny.
  exists lims, nx, ny, xl, xh, yl, yh. repeat split; auto.
  apply (np_transpose_grid (fun i j => count_cell _ (S i) (S j))). exact Hnx.
Qed.

Lemma bool_eq_iff (b1 b2 : bool) : (b1 = true <-> b2 = true) -> b1 = b2.
Proof. destruct b1, b2; intuition congruence. Qed.

Lemma fold_left_Qmax_in (r : list Q) (v : Q) : In (fold_left Qmax r v) (v :: r).
Proof.
  revert v. induction r as [| a r IH]; intros v; simpl; [left; reflexivity |].
  destruct (IH (Qmax v a)) as [Hm | Hm]; [| right; right; exact Hm].
  assert (Hva : Qmax v a = v \/ Qmax v a = a)
    by (unfold Qmax, GenericMinMax.gmax; destruct (v ?= a); auto).
  rewrite <- Hm. destruct Hva as [-> | ->]; auto.
Qed.

Lemma in_box_true (a b c d : Q) (p : Q * Q) :
  in_box ((a, b), (c, d)) p = true -> (a <= fst p /\ fst p < b) /\ (c <= snd p /\ snd p < d).
Proof.
  unfold in_box. intros H.
  apply andb_prop in H as [H1 H2]. apply andb_prop in H1 as [H1 H3].
  apply andb_prop in H2 as [H2 H4].
  apply Qleb_true in H1, H2. apply Qltb_true in H3, H4. auto.
Qed.

Lemma dd_index_range (lo hi : Q) (n : nat) (v : Q) :
  lo < hi -> n <> 0%nat -> lo <= v -> v < hi ->
  (1 <= dd_index (linspace lo hi n) v <= n)%nat.
Proof.
  intros Hlt Hn H1 H2.
  destruct (exists_bin (fun j => nth j (linspace lo hi n) 0) n v) as (k & Hk & Hk1 & Hk2).
  - rewrite nth_linspace_0 by exact Hn. exact H1.
  - rewrite nth_linspace_last. exact H2.
  - rewrite (proj2 (dd_index_bin lo hi n k v Hlt Hn Hk H1 H2) (conj Hk1 Hk2)). lia.
Qed.

Lemma nth_map_seq0_any {B : Type} (G : nat -> B) (n j : nat) (d : B) :
  (j < n)%nat -> nth j (map G (seq 0 n)) d = G j.
Proof.
  intros H. rewrite (nth_indep _ d (G O)) by (rewrite length_map, length_seq; exact H).
  rewrite map_nth, seq_nth by exact H. reflexivity.
Qed.

(** The cells of a 2-D histogram returned by [accumulatespatial]. *)
Lemma accumulatespatial_2d_cells_count (x y : list Q) (n : nat) (kw : kwargs)
    (h : list (list nat)) (ye xe : list Q) :
  accumulatespatial (mk_ndarray2 [x; y] n) kw = Ok (Hist2 h, Edges2 ye xe) ->
  exists lims,
    limits_2d x y (kw_limits kw) = Ok lims /\
    length h = Nat.pred (length ye) /\
    Forall (fun row => length row = Nat.pred (length xe)) h /\
    forall i j, (S i < length xe)%nat -> (S j < length ye)%nat ->
      nth i (nth j h []) O =
      length (filter (fun p => in_box lims p &&
                               (Qleb (nth i xe 0) (fst p) && Qltb (fst p) (nth (S i) xe 0)) &&
                               (Qleb (nth j ye 0) (snd p) && Qltb (snd p) (nth (S j) ye 0)))
                     (combine x y)).
Proof.
  intros H. destruct (accumulatespatial_2d_inv _ _ _ _ _ _ H)
    as (lims & nx & ny & xl & xh & yl & yh & Hl & Hlen & Hrx & Hry & Hnx & Hny & He & ->).
  injection He as -> ->. exists lims. split; [exact Hl |].
  rewrite !length_linspace. cbn [Nat.pred]. split; [rewrite length_map, length_seq; reflexivity |].
  split.
  - apply Forall_map, Forall_forall. intros j _. rewrite length_map, length_seq. reflexivity.
  - intros i j Hi Hj.
    rewrite nth_map_seq0_any by lia. rewrite nth_map_seq0 by lia.
    unfold count_cell. rewrite length_filter_map, filter_filter_and. f_equal.
    apply filter_ext. intros p. cbn [fst snd].
    destruct lims as [[a b] [c d]].
    destruct (in_box ((a, b), (c, d)) p) eqn:Hb; [| reflexivity]. cbn [andb].
    apply in_box_true in Hb as [[Hx1 Hx2] [Hy1 Hy2]].
    cbn [fst snd] in Hrx, Hry.
    rewrite get_outer_edges_lt_id in Hrx, Hry by lra.
    injection Hrx as <- <-. injection Hry as <- <-.
    assert (Hab : a < b) by lra. assert (Hcd : c < d) by lra.
    f_equal; apply bool_eq_iff; rewrite Nat.eqb_eq, andb_true_iff, Qleb_true, Qltb_true.
    + apply dd_index_bin; auto. lia.
    + apply dd_index_bin; auto. lia.
Qed.

(** X4. For a two-row position array, a successful [accumulatespatial] returns a histogram with one row per y bin and one column per x bin, and cell [(j, i)] counts the in-range samples [(x, y)] with [xe_i <= x < xe_(i+1)] and [ye_j <= y < ye_(j+1)]. *)
Theorem accumulatespatial_2d_cells (x y : list Q) (n : nat) (kw : kwargs)
    (h : list (list nat)) (ye xe : list Q) :
  accumulatespatial (mk_ndarray2 [x; y] n) kw = Ok (Hist2 h, Edges2 ye xe) ->
  exists lims,
    limits_2d x y (kw_limits kw) = Ok lims /\
    length h = Nat.pred (length ye) /\
    Forall (fun row => length row = Nat.pred (length xe)) h /\
    forall i j, (S i < length xe)%nat -> (S j < length ye)%nat ->
      nth i (nth j h []) O =
      length (filter (fun p => in_box lims p &&
                               (Qleb (nth i xe 0) (fst p) && Qltb (fst p) (nth (S i) xe 0)) &&
                               (Qleb (nth j ye 0) (snd p) && Qltb (snd p) (nth (S j) ye 0)))
                     (combine x y)).
Proof. exact (accumulatespatial_2d_cells_count x y n kw h ye xe). Qed.

Lemma accumulatespatial_2d_sum (x y : list Q) (n : nat) (kw : kwargs)
    (h : list (list nat)) (e : edges_val) :
  accumulatespatial (mk_ndarray2 [x; y] n) kw = Ok (Hist2 h, e) ->
  exists lims, limits_2d x y (kw_limits kw) = Ok lims /\ length x = length y /\
    list_sum (concat h) = length (filter (in_box lims) (combine x y)).
Proof.
  intros H. destruct (accumulatespatial_2d_inv _ _ _ _ _ _ H)
    as (lims & nx & ny & xl & xh & yl & yh & Hl & Hlen & Hrx & Hry & Hnx & Hny & _ & ->).
  exists lims. split; [exact Hl | split; [exact Hlen |]].
  rewrite list_sum_concat, map_map, sum_count_cell, length_map; [reflexivity |].
  apply Forall_map, Forall_forall. intros p Hp. apply filter_In in Hp as [_ Hp].
  destruct lims as [[a b] [c d]]. apply in_box_true in Hp as [[Hx1 Hx2] [Hy1 Hy2]].
  cbn [fst snd] in Hrx, Hry |- *.
  rewrite get_outer_edges_lt_id in Hrx, Hry by lra.
  injection Hrx as <- <-. injection Hry as <- <-.
  split; apply dd_index_range; auto; lra.
Qed.

(** X5. For a two-row position array, the cells of a successful [accumulatespatial] add up to the number of samples inside the half-open limit box. *)
Theorem accumulatespatial_2d_total (x y : list Q) (n : nat) (kw : kwargs)
    (h : list (list nat)) (e : edges_val) :
  accumulatespatial (mk_ndarray2 [x; y] n) kw = Ok (Hist2 h, e) ->
  exists lims, limits_2d x y (kw_limits kw) = Ok lims /\
    list_sum (concat h) = length (filter (in_box lims) (combine x y)).
Proof.
  intros H. destruct (accumulatespatial_2d_sum _ _ _ _ _ _ H) as (lims & Hl & _ & Hs).
  eauto.
Qed.

Lemma in_combine_l (x y : list Q) (a : Q) :
  length x = length y -> In a x -> exists b, In (a, b) (combine x y).
Proof.
  revert y. induction x as [| v x IH]; intros [| w y] Hlen Ha; simpl in *;
    try discriminate; [contradiction |].
  destruct Ha as [<- | Ha]; [eauto |].
  destruct (IH y ltac:(lia) Ha) as [b Hb]. eauto.
Qed.

(** X6. For a two-row position array and no [limits], the cells of a successful [accumulatespatial] add up to strictly fewer than the number of samples: a sample with the largest x lies on the excluded upper limit. *)
Theorem accumulatespatial_2d_default_limits_drop_max (x y : list Q) (n : nat)
    (kw : kwargs) (h : list (list nat)) (e : edges_val) :
  kw_limits kw = None ->
  accumulatespatial (mk_ndarray2 [x; y] n) kw = Ok (Hist2 h, e) ->
  (list_sum (concat h) < length x)%nat.
Proof.
  intros Hnone H. destruct (accumulatespatial_2d_sum _ _ _ _ _ _ H)
    as (lims & Hl & Hlen & ->).
  unfold limits_2d in Hl. rewrite Hnone in Hl. cbn [limits_eq_none bind] in Hl.
  destruct x as [| v r]; [discriminate |]. cbn [nanmin nanmax bind] in Hl.
  apply bind_eq_Ok in Hl as (yl & _ & Hl). apply bind_eq_Ok in Hl as (yh & _ & Hl).
  injection Hl as <-.
  destruct (in_combine_l (v :: r) y _ Hlen (fold_left_Qmax_in r v)) as [b Hb].
  replace (length (v :: r)) with (length (combine (v :: r) y))
    by (rewrite length_combine; lia).
  apply (filter_length_lt _ _ _ Hb). unfold in_box. cbn [fst].
  replace (Qltb (fold_left Qmax r v) (fold_left Qmax r v)) with false
    by (symmetry; apply Qltb_false; apply Qle_refl).
  rewrite !andb_false_r. reflexivity.
Qed.


(** X8. For a two-row position array with limits [xl < xh] and [yl < yh], the x edges of a successful [accumulatespatial] are spaced by [(xh - xl) / nx] and the y edges by [(yh - yl) / ny]. *)
Theorem accumulatespatial_2d_bin_width (x y : list Q) (n : nat) (kw : kwargs)
    (h : list (list nat)) (ye xe : list Q) (xl xh yl yh : Q) :
  accumulatespatial (mk_ndarray2 [x; y] n) kw = Ok (Hist2 h, Edges2 ye xe) ->
  limits_2d x y (kw_limits kw) = Ok ((xl, xh), (yl, yh)) -> xl < xh -> yl < yh ->
  (forall i, (S i < length xe)%nat ->
     nth (S i) xe 0 - nth i xe 0 == (xh - xl) / Q_of_nat (Nat.pred (length xe))) /\
  (forall j, (S j < length ye)%nat ->
     nth (S j) ye 0 - nth j ye 0 == (yh - yl) / Q_of_nat (Nat.pred (length ye))).
Proof.
  intros H Hl Hx Hy. destruct (accumulatespatial_2d_inv _ _ _ _ _ _ H)
    as (lims & nx & ny & xl' & xh' & yl' & yh' & Hl' & _ & Hrx & Hry & Hnx & Hny & He & _).
  rewrite Hl in Hl'. injection Hl' as <-. cbn [fst snd] in Hrx, Hry.
  rewrite get_outer_edges_lt_id in Hrx by exact Hx.
  rewrite get_outer_edges_lt_id in Hry by exact Hy.
  injection Hrx as <- <-. injection Hry as <- <-. injection He as -> ->.
  rewrite !length_linspace. cbn [Nat.pred].
  split; intros i Hi; apply linspace_width; auto; lia.
Qed.


(** ** Speed filter *)

Lemma bool_index_agree (a1 a2 : list Q) (m : list bool) :
  length a1 = length m -> length a2 = length m ->
  (forall k, nth k m false = true -> nth k a1 0 = nth k a2 0) ->
  bool_index a1 m = bool_index a2 m.
Proof.
  intros H1 H2 Hk. unfold bool_index. rewrite H1, H2, Nat.eqb_refl. f_equal.
  revert a1 a2 H1 H2 Hk.
  induction m as [| b m IH]; intros [| v1 a1] [| v2 a2] H1 H2 Hk; simpl in *;
    try discriminate; [reflexivity |].
  destruct b; simpl.
  - rewrite (Hk 0%nat eq_refl). f_equal. apply IH; try lia. intros k. exact (Hk (S k)).
  - apply IH; try lia. intros k. exact (Hk (S k)).
Qed.

Lemma nth_speed_mask (cutoff : Q) (s : list Q) (k : nat) :
  nth k (map (fun v => Qltb cutoff v) s) false = true -> cutoff < nth k s 0.
Proof.
  intros H. destruct (Nat.lt_ge_cases k (length s)) as [Hk | Hk].
  - rewrite (nth_indep _ false (Qltb cutoff 0)) in H by (rewrite length_map; exact Hk).
    rewrite map_nth in H. apply Qltb_true. exact H.
  - rewrite nth_overflow in H by (rewrite length_map; exact Hk). discriminate.
Qed.

(** X9. Positions of samples whose speed is not above the speed cutoff do not affect [spatial_occupancy]: two position arrays that agree on the fast samples give the same result. *)
Theorem spatial_occupancy_ignores_slow_samples (time : list Q) (a1 b1 a2 b2 : list Q)
    (n : nat) (speed : ndarray) (kw : kwargs) :
  length a1 = length (nd_flat speed) -> length b1 = length (nd_flat speed) ->
  length a2 = length (nd_flat speed) -> length b2 = length (nd_flat speed) ->
  (forall k, get (kw_speed_cutoff kw) default.speed_cutoff < nth k (nd_flat speed) 0 ->
     nth k a1 0 = nth k a2 0 /\ nth k b1 0 = nth k b2 0) ->
  spatial_occupancy time (mk_ndarray2 [a1; b1] n) speed kw =
  spatial_occupancy time (mk_ndarray2 [a2; b2] n) speed kw.
Proof.
  intros Ha1 Hb1 Ha2 Hb2 Hk.
  unfold spatial_occupancy, occupancy_histogram. cbn [p_rows p_ncols length row_at nth_error bind].
  erewrite (bool_index_agree a1 a2); [erewrite (bool_index_agree b1 b2); [reflexivity | ..] | ..];
    rewrite ?length_map; try assumption;
    intros k Hm; apply nth_speed_mask in Hm; apply Hk in Hm; tauto.
Qed.

(** ** Timestamps *)

(** X10. With [debug] off, [spatial_occupancy] depends on [time] only through [np.min(np.diff(time))]: the length of [time] is never compared with the number of samples. *)
Theorem spatial_occupancy_time_only_through_min_delta (time1 time2 : list Q)
    (position : ndarray2) (speed : ndarray) (kw : kwargs) :
  kw_debug kw = false ->
  np_min (np_diff time1) = np_min (np_diff time2) ->
  spatial_occupancy time1 position speed kw = spatial_occupancy time2 position speed kw.
Proof.
  intros Hd Ht. unfold spatial_occupancy, occupancy_histogram.
  rewrite Hd, Ht. reflexivity.
Qed.

Lemma spatial_occupancy_short_time (time : list Q) (position : ndarray2)
    (speed : ndarray) (kw : kwargs) :
  (length time < 2)%nat -> forall r, spatial_occupancy time position speed kw <> Ok r.
Proof.
  intros Hlen [[mm cov] e] H.
  destruct (spatial_occupancy_Ok_inv _ _ _ _ _ _ _ H) as (h & fd & Hocc & _).
  destruct (occupancy_histogram_Ok_inv _ _ _ _ _ _ _ Hocc) as [Hfd _].
  destruct time as [| t0 [| t1 time]]; simpl in Hlen; [discriminate | discriminate | lia].
Qed.

(** X11. [spatial_occupancy] never returns when [time] has fewer than two entries. *)
Theorem spatial_occupancy_short_time_raises (time : list Q) (position : ndarray2)
    (speed : ndarray) (kw : kwargs) :
  (length time < 2)%nat -> forall r, spatial_occupancy time position speed kw <> Ok r.
Proof. exact (spatial_occupancy_short_time time position speed kw). Qed.

Lemma spatial_occupancy_debug_eq (time : list Q) (position : ndarray2)
    (speed : ndarray) (kw : kwargs) :
  (2 <= length time)%nat ->
  spatial_occupancy time position speed (with_debug kw true) =
  spatial_occupancy time position speed (with_debug kw false).
Proof.
  intros Hlen. unfold spatial_occupancy, occupancy_histogram, with_debug.
  cbn [kw_debug andb].
  replace (Nat.eqb (length time) 0) with false by (symmetry; apply Nat.eqb_neq; lia).
  replace (Nat.ltb (length time) 2) with false by (symmetry; apply Nat.ltb_ge; lia).
  reflexivity.
Qed.

(** X12. The [debug] flag does not change what [spatial_occupancy] returns. *)
Theorem spatial_occupancy_debug_same_result (time : list Q) (position : ndarray2)
    (speed : ndarray) (kw : kwargs) (r : masked_val * Q * edges_val) :
  spatial_occupancy time position speed (with_debug kw true) = Ok r <->
  spatial_occupancy time position speed (with_debug kw false) = Ok r.
Proof.
  destruct (Nat.lt_ge_cases (length time) 2) as [Hs | Hs].
  - split; intros H; exfalso; exact (spatial_occupancy_short_time _ _ _ _ Hs r H).
  - rewrite spatial_occupancy_debug_eq by exact Hs. reflexivity.
Qed.

(** ** Coverage *)

Lemma Q_of_nat_inj (a b : nat) : Q_of_nat a == Q_of_nat b <-> a = b.
Proof. unfold Q_of_nat. rewrite inject_Z_injective. lia. Qed.

Lemma ratio_eq_1 (a b : nat) : b <> 0%nat -> (Q_of_nat a / Q_of_nat b == 1 <-> a = b).
Proof.
  intros Hb. pose proof (Q_of_nat_pos b Hb) as Hp. rewrite <- Q_of_nat_inj. split.
  - intros H. setoid_replace (Q_of_nat a) with (Q_of_nat a / Q_of_nat b * Q_of_nat b)
      by (field; intros Hz; lra).
    rewrite H. ring.
  - intros H. rewrite H. field. intros Hz; lra.
Qed.

Lemma ratio_eq_0 (a b : nat) : b <> 0%nat -> (Q_of_nat a / Q_of_nat b == 0 <-> a = 0%nat).
Proof.
  intros Hb. pose proof (Q_of_nat_pos b Hb) as Hp.
  split.
  - intros H. apply Q_of_nat_inj. change (Q_of_nat 0) with 0.
    setoid_replace (Q_of_nat a) with (Q_of_nat a / Q_of_nat b * Q_of_nat b)
      by (field; intros Hz; lra).
    rewrite H. ring.
  - intros ->. change (Q_of_nat 0) with 0. unfold Qdiv. ring.
Qed.

(** X13. For a square arena, the coverage returned by [spatial_occupancy] is 1 exactly when every bin was visited, and 0 exactly when no bin was visited. *)
Theorem spatial_occupancy_square_coverage (time : list Q) (position : ndarray2)
    (speed : ndarray) (kw : kwargs) (mm : masked_val) (cov : Q) (e : edges_val) :
  py_in (py_lower (get (kw_arena_shape kw) default.shape)) default.shapes_square = true ->
  spatial_occupancy time position speed kw = Ok (mm, cov, e) ->
  exists h fd,
    occupancy_histogram time position speed kw = Ok (h, e, fd) /\
    (cov == 1 <-> Forall (fun c => c <> 0%nat) (hist_flat h)) /\
    (cov == 0 <-> Forall (fun c => c = 0%nat) (hist_flat h)).
Proof.
  intros Hsq H. unfold spatial_occupancy in H.
  apply bind_eq_Ok in H as ([[h e'] fd] & Hocc & H). cbv beta iota zeta in H.
  rewrite Hsq in H.
  destruct (length (hist_flat h)) as [| k] eqn:Hn; [discriminate |].
  injection H as _ <- <-. exists h, fd. split; [exact Hocc |].
  unfold count_nonzero. rewrite <- Hn. split.
  - rewrite ratio_eq_1 by lia. rewrite filter_length_eq_Forall.
    split; apply Forall_impl; intros c Hc.
    + intros ->. discriminate Hc.
    + apply negb_true_iff, Nat.eqb_neq. exact Hc.
  - rewrite ratio_eq_0 by lia. rewrite filter_length_zero_Forall.
    split; apply Forall_impl; intros c Hc.
    + apply negb_false_iff, Nat.eqb_eq in Hc. exact Hc.
    + rewrite Hc. reflexivity.
Qed.

Lemma circle_tag_not_square (s : string) :
  py_in s default.shapes_circle = true -> py_in s default.shapes_square = false.
Proof.
  unfold py_in. intros H. apply existsb_exists in H.
  destruct H as [t [Hin Ht]]. apply String.eqb_eq in Ht. subst t.
  simpl in Hin. destruct Hin as [<- | [<- | [<- | [<- | []]]]]; reflexivity.
Qed.

Lemma count_true_zero (l : list bool) : Forall (fun b => b = false) l -> count_true l = 0%nat.
Proof. intros H. unfold count_true. apply filter_length_zero_Forall. exact H. Qed.

(** X14. For a circular arena, the circle is centred at the origin: when every bin centre lies outside the circle of the arena's radius, the coverage returned by [spatial_occupancy] is 1, whatever was visited. *)
Theorem spatial_occupancy_circle_off_origin (time : list Q) (position : ndarray2)
    (speed : ndarray) (kw : kwargs) (mm : masked_val) (cov : Q) (e0 e1 : list Q)
    (radius : Q) :
  let bin_width := get (kw_bin_width kw) default.bin_width in
  py_in (py_lower (get (kw_arena_shape kw) default.shape)) default.shapes_circle = true ->
  spatial_occupancy time position speed kw = Ok (mm, cov, Edges2 e0 e1) ->
  circle_radius (kw_arena_size kw) = Ok (Some radius) ->
  (forall a b, In a (removelast e0) -> In b (removelast e1) ->
     radius * radius < (a + bin_width / 2) * (a + bin_width / 2) +
                       (b + bin_width / 2) * (b + bin_width / 2)) ->
  cov = 1.
Proof.
  cbv zeta. intros Hc H Hr Hfar. unfold spatial_occupancy in H.
  apply bind_eq_Ok in H as ([[h e'] fd] & _ & H). cbv beta iota zeta in H.
  rewrite (circle_tag_not_square _ Hc), Hc in H.
  apply bind_eq_Ok in H as (c & Hcov & H). injection H as _ <- ->.
  unfold circle_coverage in Hcov. rewrite Hr in Hcov. cbn [bind] in Hcov.
  rewrite count_true_zero in Hcov.
  - injection Hcov as <-. destruct (count_nonzero (hist_flat h)); reflexivity.
  - apply Forall_forall. intros b Hb. apply in_flat_map in Hb as (Y & HY & Hb).
    apply in_map_iff in HY as (yb & <- & HY).
    apply in_map_iff in Hb as (X & <- & HX). apply in_map_iff in HX as (xb & <- & HX).
    unfold within. specialize (Hfar xb yb HX HY).
    destruct (Qleb 0 radius); [| reflexivity]. cbn [andb]. apply Qleb_false.
    lra.
Qed.

(** ** No sample above the speed cutoff *)

Lemma bool_index_all_false (a : list Q) (m : list bool) :
  length a = length m -> Forall (fun b => b = false) m -> bool_index a m = Ok [].
Proof.
  intros Hlen Hm. unfold bool_index. rewrite Hlen, Nat.eqb_refl. f_equal.
  revert a Hlen. induction Hm as [| b m Hb _ IH]; intros [| v a] Hlen; simpl in *;
    try discriminate; [reflexivity |].
  subst b. apply IH. lia.
Qed.

Lemma occupancy_histogram_rows (time : list Q) (position : ndarray2) (speed : ndarray)
    (kw : kwargs) (h : hist_val) (e : edges_val) (fd : Q) :
  occupancy_histogram time position speed kw = Ok (h, e, fd) ->
  let good := map (fun s => Qltb (get (kw_speed_cutoff kw) default.speed_cutoff) s)
                  (nd_flat speed) in
  exists row0 row1 x y,
    row_at position 0 = Ok row0 /\ row_at position 1 = Ok row1 /\
    bool_index row0 good = Ok x /\ bool_index row1 good = Ok y /\
    accumulatespatial (mk_ndarray2 [x; y] (length x)) kw = Ok (h, e).
Proof.
  intros H. unfold occupancy_histogram in H. cbv zeta in H. cbv zeta.
  apply raise_if_eq_Ok in H as [_ H]. apply raise_if_eq_Ok in H as [_ H].
  apply raise_if_eq_Ok in H as [_ H]. apply raise_if_eq_Ok in H as [_ H].
  apply raise_if_eq_Ok in H as [_ H]. apply raise_if_eq_Ok in H as [_ H].
  apply bind_eq_Ok in H as (row0 & H0 & H).
  apply bind_eq_Ok in H as (x & Hx & H).
  apply bind_eq_Ok in H as (row1 & H1 & H).
  apply bind_eq_Ok in H as (y & Hy & H).
  apply bind_eq_Ok in H as ([h' e'] & Ha & H). apply bind_eq_Ok in H as (fd' & _ & H). injection H as <- <- _.
  exists row0, row1, x, y. auto.
Qed.

Lemma accumulatespatial_2d_hist2 (x y : list Q) (n : nat) (kw : kwargs)
    (h : hist_val) (e : edges_val) :
  accumulatespatial (mk_ndarray2 [x; y] n) kw = Ok (h, e) -> exists g, h = Hist2 g.
Proof.
  intros H. unfold accumulatespatial in H. cbn [p_rows length] in H.
  apply raise_if_eq_Ok in H as [_ H]. cbv zeta in H.
  apply raise_if_eq_Ok in H as [_ H].
  apply bind_eq_Ok in H as ([arena is_2d] & Hv & H).
  rewrite (validatekeyword_2d _ _ _ Hv) in H. peel_ok H. injection H as <- _. eauto.
Qed.

Lemma list_sum_zero (l : list nat) : list_sum l = 0%nat -> Forall (fun c => c = 0%nat) l.
Proof.
  induction l as [| a l IH]; simpl; intros H; constructor; [lia | apply IH; lia].
Qed.

(** X15. When no sample is faster than the speed cutoff, [spatial_occupancy] never returns without explicit [limits], and with them every bin of the returned map is masked. *)
Theorem spatial_occupancy_no_fast_samples (time : list Q) (position : ndarray2)
    (speed : ndarray) (kw : kwargs) :
  Forall (fun s => s <= get (kw_speed_cutoff kw) default.speed_cutoff) (nd_flat speed) ->
  (kw_limits kw = None -> forall r, spatial_occupancy time position speed kw <> Ok r) /\
  (forall mm cov e, spatial_occupancy time position speed kw = Ok (mm, cov, e) ->
     Forall (fun b => snd b = true) (masked_flat mm)).
Proof.
  intros Hslow.
  assert (Hgood : Forall (fun b => b = false)
            (map (fun s => Qltb (get (kw_speed_cutoff kw) default.speed_cutoff) s)
                 (nd_flat speed))).
  { apply Forall_map. eapply Forall_impl; [| exact Hslow].
    intros s Hs. apply Qltb_false. exact Hs. }
  assert (Hinv : forall mm cov e, spatial_occupancy time position speed kw = Ok (mm, cov, e) ->
            exists g fd, accumulatespatial (mk_ndarray2 [[]; []] 0) kw = Ok (Hist2 g, e) /\
                         mm = masked_where_map fd (Hist2 g)).
  { intros mm cov e H.
    destruct (spatial_occupancy_Ok_inv _ _ _ _ _ _ _ H) as (h & fd & Hocc & -> & _).
    destruct (occupancy_histogram_rows _ _ _ _ _ _ _ Hocc)
      as (row0 & row1 & x & y & _ & _ & Hx & Hy & Ha).
    rewrite bool_index_all_false in Hx, Hy
      by (exact Hgood || (apply bool_index_length in Hx; exact Hx)
                      || (apply bool_index_length in Hy; exact Hy)).
    injection Hx as <-. injection Hy as <-.
    destruct (accumulatespatial_2d_hist2 _ _ _ _ _ _ Ha) as [g ->]. eauto. }
  split.
  - intros Hnone r H. destruct r as [[mm cov] e].
    destruct (Hinv _ _ _ H) as (g & fd & Ha & _).
    unfold accumulatespatial in Ha. cbn [p_rows length] in Ha.
    apply raise_if_eq_Ok in Ha as [_ Ha]. cbv zeta in Ha.
    apply raise_if_eq_Ok in Ha as [_ Ha].
    apply bind_eq_Ok in Ha as ([arena is_2d] & Hv & Ha).
    rewrite (validatekeyword_2d _ _ _ Hv) in Ha.
    apply bind_eq_Ok in Ha as (nb & _ & Ha). cbn [row_at nth_error p_rows bind] in Ha.
    unfold limits_2d in Ha. rewrite Hnone in Ha. discriminate Ha.
  - intros mm cov e H. destruct (Hinv _ _ _ H) as (g & fd & Ha & ->).
    destruct (accumulatespatial_2d_sum _ _ _ _ _ _ Ha) as (lims & _ & _ & Hs).
    cbn [combine filter length] in Hs. apply list_sum_zero in Hs.
    rewrite masked_flat_where. apply Forall_map. eapply Forall_impl; [| exact Hs].
    intros c ->. reflexivity.
Qed.

(** ** Input checks of [accumulatespatial] *)

(** X16. [accumulatespatial] raises [ValueError] when the position array has neither 1 nor 2 rows, or when [limits] has a type other than tuple, list or ndarray. *)
Theorem accumulatespatial_rejects_bad_input (pos : ndarray2) (kw : kwargs) :
  ((length (p_rows pos) <> 1%nat /\ length (p_rows pos) <> 2%nat) \/
   kw_limits kw = Some LOther) ->
  accumulatespatial pos kw = Err ValueError.
Proof.
  intros H. unfold accumulatespatial, raise_if.
  destruct (Nat.eqb_spec (length (p_rows pos)) 1), (Nat.eqb_spec (length (p_rows pos)) 2);
    cbn [orb negb]; try reflexivity;
    (destruct H as [H | H]; [lia | cbv zeta; rewrite H; reflexivity]).
Qed.

Lemma validatekeyword_dims (kwv : option arena_val) (dims : nat) (arena : arena_norm)
    (is_2d : bool) :
  validatekeyword__arena_size kwv dims = Ok (arena, is_2d) -> is_2d = Nat.eqb dims 2.
Proof.
  destruct kwv as [[q | l | q] |]; [| destruct l as [| a1 [| a2 [| a3 l]]] | |];
    destruct dims as [| [| [| d]]]; simpl;
    intros H; try discriminate; injection H as _ <-; reflexivity.
Qed.

Lemma limits_eq_none_some (l : limits_val) : limits_eq_none (Some l) <> Ok true.
Proof. destruct l as [l | l | [| a [| b l]] |]; discriminate. Qed.

(** X17. [accumulatespatial] never returns when explicit [limits] do not hold two values per dimension. *)
Theorem accumulatespatial_limits_wrong_length (pos : ndarray2) (kw : kwargs) :
  kw_limits kw <> None ->
  length (limits_elems (kw_limits kw)) <> (2 * length (p_rows pos))%nat ->
  forall r, accumulatespatial pos kw <> Ok r.
Proof.
  intros Hsome Hlen r H. unfold accumulatespatial in H.
  apply raise_if_eq_Ok in H as [Hd H]. cbv zeta in H.
  assert (Hdims : length (p_rows pos) = 1%nat \/ length (p_rows pos) = 2%nat).
  { destruct (Nat.eqb_spec (length (p_rows pos)) 1), (Nat.eqb_spec (length (p_rows pos)) 2);
      auto; discriminate Hd. }
  apply raise_if_eq_Ok in H as [_ H].
  apply bind_eq_Ok in H as ([arena is_2d] & Hv & H).
  apply validatekeyword_dims in Hv.
  apply bind_eq_Ok in H as (nb & _ & H).
  apply bind_eq_Ok in H as (x & _ & H).
  destruct (kw_limits kw) as [l |] eqn:Hl; [| contradiction].
  destruct (limits_eq_none (Some l)) as [[|] | err] eqn:Hn;
    [exact (limits_eq_none_some l Hn) | |].
  - destruct is_2d.
    + apply bind_eq_Ok in H as (y & _ & H). apply bind_eq_Ok in H as (lims & Hlims & _).
      unfold limits_2d in Hlims. rewrite Hn in Hlims. cbn [bind] in Hlims.
      symmetry in Hv. apply Nat.eqb_eq in Hv. rewrite Hv in Hlen.
      replace (Nat.eqb (length (limits_elems (Some l))) 4) with false in Hlims
        by (symmetry; apply Nat.eqb_neq; lia).
      discriminate Hlims.
    + apply bind_eq_Ok in H as (lims & Hlims & _).
      unfold limits_1d in Hlims. rewrite Hn in Hlims. cbn [bind] in Hlims.
      symmetry in Hv. apply Nat.eqb_neq in Hv.
      replace (Nat.eqb (length (limits_elems (Some l))) 2) with false in Hlims
        by (symmetry; apply Nat.eqb_neq; lia).
      discriminate Hlims.
  - destruct is_2d.
    + apply bind_eq_Ok in H as (y & _ & H). apply bind_eq_Ok in H as (lims & Hlims & _).
      unfold limits_2d in Hlims. rewrite Hn in Hlims. discriminate Hlims.
    + apply bind_eq_Ok in H as (lims & Hlims & _).
      unfold limits_1d in Hlims. rewrite Hn in Hlims. discriminate Hlims.
Qed.

(** ** Sign of the bin counts *)

Lemma int_bins_ceil_pos (a bin_width : Q) (n : nat) :
  int_bins (np_ceil_div a bin_width) = Ok n -> ~ bin_width == 0 /\ 0 < a / bin_width.
Proof.
  intros H. split.
  - intros Hz. unfold np_ceil_div, Qeqb in H.
    rewrite (proj2 (Qeq_bool_iff _ _) Hz) in H. discriminate H.
  - destruct (int_bins_ceil _ _ _ H) as [Hc Hn].
    apply Qnot_le_lt. intros Hle. apply Qceiling_resp_le in Hle.
    change (Qceiling 0) with 0%Z in Hle. lia.
Qed.

(** X18. A successful [accumulatespatial] had a nonzero [bin_width] and a positive ratio of each arena side to [bin_width]. *)
Theorem accumulatespatial_bin_count_sign (pos : ndarray2) (kw : kwargs)
    (h : hist_val) (e : edges_val) :
  accumulatespatial pos kw = Ok (h, e) ->
  let bin_width := get (kw_bin_width kw) default.bin_width in
  ~ bin_width == 0 /\
  exists arena is_2d,
    validatekeyword__arena_size (kw_arena_size kw) (length (p_rows pos)) = Ok (arena, is_2d) /\
    match arena with
    | Arena1 a => 0 < a / bin_width
    | Arena2 ax ay => 0 < ax / bin_width /\ 0 < ay / bin_width
    end.
Proof.
  intros H. cbv zeta. unfold accumulatespatial in H.
  apply raise_if_eq_Ok in H as [_ H]. cbv zeta in H.
  apply raise_if_eq_Ok in H as [_ H].
  apply bind_eq_Ok in H as ([arena is_2d] & Hv & H).
  pose proof (validatekeyword_shape _ _ _ _ Hv) as Hs.
  apply bind_eq_Ok in H as (nb & Hnb & H).
  apply bind_eq_Ok in H as (x & _ & H).
  destruct arena as [a | ax ay]; subst is_2d; cbv beta iota in H.
  - apply bind_eq_Ok in H as (lims & _ & H).
    apply bind_eq_Ok in H as ([hist edges] & Hh & _).
    rewrite histogram_float in Hh. discriminate Hh.
  - apply bind_eq_Ok in H as (y & _ & H).
    apply bind_eq_Ok in H as (lims & _ & H).
    apply bind_eq_Ok in H as (ix & _ & H).
    apply bind_eq_Ok in H as (iy & _ & H).
    apply bind_eq_Ok in H as ([[hist xe] ye] & Hh & _).
    unfold num_bins_of in Hnb. injection Hnb as <-.
    destruct (histogram2d_inv _ _ _ _ _ _ _ Hh)
      as (nx & ny & xl & xh & yl & yh & (bx & bY & Hb & Hnx & Hny) & _).
    injection Hb as <- <-.
    destruct (int_bins_ceil_pos _ _ _ Hnx) as [Hz Hax].
    destruct (int_bins_ceil_pos _ _ _ Hny) as [_ Hay].
    split; [exact Hz |]. exists (Arena2 ax ay), true. auto.
Qed.

(** ** The 1-D path of [accumulatespatial] *)

Lemma accumulatespatial_1d_not_Ok (x : list Q) (n : nat) (kw : kwargs)
    (r : hist_val * edges_val) :
  accumulatespatial (mk_ndarray2 [x] n) kw <> Ok r.
Proof.
  intros H. unfold accumulatespatial in H. cbn [p_rows length] in H.
  apply raise_if_eq_Ok in H as [_ H]. cbv zeta in H.
  apply raise_if_eq_Ok in H as [_ H].
  apply bind_eq_Ok in H as ([arena is_2d] & Hv & H).
  apply validatekeyword_dims in Hv. subst is_2d. change (Nat.eqb 1 2) with false in H.
  apply bind_eq_Ok in H as (nb & _ & H).
  apply bind_eq_Ok in H as (x' & _ & H).
  apply bind_eq_Ok in H as (lims & _ & H).
  apply bind_eq_Ok in H as (hh & Hh & _).
  rewrite histogram_float in Hh. discriminate Hh.
Qed.

Lemma accumulatespatial_Ok_rows (pos : ndarray2) (kw : kwargs) (r : hist_val * edges_val) :
  accumulatespatial pos kw = Ok r ->
  exists x y, pos = mk_ndarray2 [x; y] (p_ncols pos).
Proof.
  intros H. destruct pos as [rows ncols]. cbn [p_ncols].
  destruct rows as [| x [| y [| z rows]]].
  - unfold accumulatespatial in H. cbn in H. discriminate H.
  - exfalso. exact (accumulatespatial_1d_not_Ok x ncols kw r H).
  - eauto.
  - unfold accumulatespatial in H. cbn in H. discriminate H.
Qed.

(** C9.  An observation contributes to a histogram returned by
    [accumulatespatial] only if each of its coordinates lies in the
    half-open interval [[min, max)] of its axis.  Every returned histogram
    is 2-D, and its cell [(j, i)] counts the samples with
    [x_min <= x < x_max] and [y_min <= y < y_max] that fall in that cell,
    so a sample on an upper limit is never counted.  The 1-D path returns
    no histogram at all: [np.histogram] raises [TypeError] on the numpy
    float bin count of [np.ceil]. *)
Theorem accumulatespatial_counts_half_open (pos : ndarray2) (kw : kwargs)
    (h : hist_val) (e : edges_val) :
  accumulatespatial pos kw = Ok (h, e) ->
  exists x y g ye xe xl xh yl yh,
    p_rows pos = [x; y] /\ h = Hist2 g /\ e = Edges2 ye xe /\
    limits_2d x y (kw_limits kw) = Ok ((xl, xh), (yl, yh)) /\
    forall i j, (S i < length xe)%nat -> (S j < length ye)%nat ->
      nth i (nth j g []) O =
      length (filter (fun p => ((Qleb xl (fst p) && Qltb (fst p) xh) &&
                                (Qleb yl (snd p) && Qltb (snd p) yh)) &&
                               (Qleb (nth i xe 0) (fst p) && Qltb (fst p) (nth (S i) xe 0)) &&
                               (Qleb (nth j ye 0) (snd p) && Qltb (snd p) (nth (S j) ye 0)))
                     (combine x y)).
Proof.
  intros H. destruct (accumulatespatial_Ok_rows _ _ _ H) as (x & y & Hpos).
  rewrite Hpos in H.
  destruct (accumulatespatial_2d_hist2 _ _ _ _ _ _ H) as [g ->].
  destruct e as [e1 | ye xe].
  - destruct (accumulatespatial_2d_inv _ _ _ _ _ _ H)
      as (lims & nx & ny & xl & xh & yl & yh & _ & _ & _ & _ & _ & _ & He & _).
    discriminate He.
  - destruct (accumulatespatial_2d_cells_count _ _ _ _ _ _ _ H)
      as ([[xl xh] [yl yh]] & Hl & _ & _ & Hc).
    exists x, y, g, ye, xe, xl, xh, yl, yh.
    rewrite Hpos. split; [reflexivity |]. split; [reflexivity |]. split; [reflexivity |].
    split; [exact Hl |]. exact Hc.
Qed.

(** X19. For a one-row position array, once the dimension and [limits] type checks, the arena-size validation, the nonzero [bin_width] and the limits all pass, [accumulatespatial] raises [TypeError]: [np.histogram] rejects the numpy float bin count returned by [np.ceil]. *)
Theorem accumulatespatial_1d_raises_TypeError (x : list Q) (n : nat) (kw : kwargs)
    (va : arena_norm * bool) (lims : Q * Q) :
  limits_type_bad (kw_limits kw) = false ->
  validatekeyword__arena_size (kw_arena_size kw) 1 = Ok va ->
  ~ get (kw_bin_width kw) default.bin_width == 0 ->
  limits_1d x (kw_limits kw) = Ok lims ->
  accumulatespatial (mk_ndarray2 [x] n) kw = Err TypeError.
Proof.
  intros Hbad Hv Hbw Hl. destruct va as [arena is_2d].
  pose proof (validatekeyword_dims _ _ _ _ Hv) as Hd. change (Nat.eqb 1 2) with false in Hd.
  subst is_2d. pose proof (validatekeyword_shape _ _ _ _ Hv) as Hs.
  destruct arena as [a | ax ay]; [| discriminate Hs].
  unfold accumulatespatial. cbn [p_rows length Nat.eqb orb negb raise_if].
  cbv zeta. rewrite Hbad. cbn [raise_if]. rewrite Hv. cbn [bind].
  unfold num_bins_of, raise_if.
  replace (Qeqb (get (kw_bin_width kw) default.bin_width) 0) with false
    by (symmetry; unfold Qeqb; apply not_true_iff_false;
        intros Hq; apply Qeq_bool_iff in Hq; contradiction).
  cbn [bind row_at nth_error p_rows]. rewrite Hl. reflexivity.
Qed.

(** * Witnesses and counterexamples *)

Lemma spatial_occupancy_1d_position_raises_witness :
  length (p_rows pos_1x3) = 1%nat /\
  match spatial_occupancy [0; 1; 2] pos_1x3 speed_3 (kw_arena10 None None) with
  | Ok _ => False
  | Err _ => True
  end.
Proof.
  split; [reflexivity |].
  destruct (spatial_occupancy [0; 1; 2] pos_1x3 speed_3 (kw_arena10 None None))
    as [r | e] eqn:H; [| exact I].
  apply (spatial_occupancy_1d_position_raises [0; 1; 2] pos_1x3 speed_3
           (kw_arena10 None None) eq_refl r H).
Defined.

(** C2 fails as stated: with a frame duration of 0.5 ms a bin visited once
    holds 0.0005 < 0.001 and is not masked. *)
Lemma spatial_occupancy_mask_counterexample :
  match spatial_occupancy [0; 1 # 2000; 2 # 2000] pos_2x3 speed_3
          (kw_arena10 None (Some (LTuple [0; 10; 0; 10]))) with
  | Ok (mm, _, _) =>
      existsb (fun p => Qltb (fst p) (1 # 1000) && negb (snd p)) (masked_flat mm)
      = true
  | Err _ => False
  end.
Proof. vm_compute. reflexivity. Qed.

Lemma spatial_occupancy_mask_is_zero_count_witness :
  match spatial_occupancy [0; 1 # 2000; 2 # 2000] pos_2x3 speed_3
          (kw_arena10 None (Some (LTuple [0; 10; 0; 10]))) with
  | Ok (mm, cov, e) =>
      exists h fd,
        occupancy_histogram [0; 1 # 2000; 2 # 2000] pos_2x3 speed_3
          (kw_arena10 None (Some (LTuple [0; 10; 0; 10]))) = Ok (h, e, fd) /\
        np_min (np_diff [0; 1 # 2000; 2 # 2000]) = Ok fd /\
        map snd (masked_flat mm) = map (fun c => Nat.eqb c 0) (hist_flat h) /\
        map fst (masked_flat mm) = map (fun c => Q_of_nat c * fd) (hist_flat h)
  | Err _ => False
  end.
Proof.
  destruct (spatial_occupancy [0; 1 # 2000; 2 # 2000] pos_2x3 speed_3
              (kw_arena10 None (Some (LTuple [0; 10; 0; 10]))))
    as [[[mm cov] e] | err] eqn:H.
  - exact (spatial_occupancy_mask_is_zero_count _ _ _ _ _ _ _ H).
  - vm_compute in H. discriminate H.
Defined.

(** C4 fails as stated: with a repeated timestamp the minimum delta is 0,
    not the minimum positive delta 1, and visited bins hold 0. *)
Lemma spatial_occupancy_time_scaling_counterexample :
  spec_frame_duration [0; 0; 1] = Ok 1 /\
  match occupancy_histogram [0; 0; 1] pos_2x3 speed_3
          (kw_arena10 None (Some (LTuple [0; 10; 0; 10]))),
        spatial_occupancy [0; 0; 1] pos_2x3 speed_3
          (kw_arena10 None (Some (LTuple [0; 10; 0; 10]))) with
  | Ok (h, _, _), Ok (mm, _, _) =>
      existsb (fun pc => negb (Qeqb (fst (fst pc)) (Q_of_nat (snd pc) * 1)))
        (combine (masked_flat mm) (hist_flat h)) = true
  | _, _ => False
  end.
Proof. split; vm_compute; reflexivity. Qed.

Lemma spatial_occupancy_time_scaling_witness :
  match spatial_occupancy [0; 1; 2] pos_2x3 speed_3
          (kw_arena10 None (Some (LTuple [0; 10; 0; 10]))) with
  | Ok (mm, cov, e) =>
      exists h fd,
        occupancy_histogram [0; 1; 2] pos_2x3 speed_3
          (kw_arena10 None (Some (LTuple [0; 10; 0; 10]))) = Ok (h, e, fd) /\
        np_min (np_diff [0; 1; 2]) = Ok fd /\
        map fst (masked_flat mm) = map (fun c => Q_of_nat c * fd) (hist_flat h) /\
        (Forall (fun d => 0 < d) (np_diff [0; 1; 2]) ->
         spec_frame_duration [0; 1; 2] = Ok fd)
  | Err _ => False
  end.
Proof.
  destruct (spatial_occupancy [0; 1; 2] pos_2x3 speed_3
              (kw_arena10 None (Some (LTuple [0; 10; 0; 10]))))
    as [[[mm cov] e] | err] eqn:H.
  - exact (spatial_occupancy_time_scaling _ _ _ _ _ _ _ H).
  - vm_compute in H. discriminate H.
Defined.

Lemma spatial_occupancy_coverage_in_unit_witness :
  match spatial_occupancy [0; 1; 2] pos_2x3 speed_3
          (kw_arena10 (Some "circle"%string) (Some (LTuple [0; 10; 0; 10]))) with
  | Ok (_, cov, _) => 0 <= cov <= 1
  | Err _ => False
  end.
Proof.
  destruct (spatial_occupancy [0; 1; 2] pos_2x3 speed_3
              (kw_arena10 (Some "circle"%string) (Some (LTuple [0; 10; 0; 10]))))
    as [[[mm cov] e] | err] eqn:H.
  - exact (spatial_occupancy_coverage_in_unit _ _ _ _ _ _ _ H).
  - vm_compute in H. discriminate H.
Defined.

(** C6 fails as stated: a linear tag with a three-row position array
    raises the shape check's [ValueError], not [NotImplementedError]. *)
Lemma spatial_occupancy_linear_counterexample :
  py_in (py_lower "linear") default.shapes_linear = true /\
  spatial_occupancy [0; 1] (mk_ndarray2 [[0]; [0]; [0]] 1) (mk_ndarray 1 [1])
    (kw_arena10 (Some "linear"%string) None) = Err ValueError.
Proof. split; reflexivity. Qed.

Lemma spatial_occupancy_linear_and_unknown_shapes_witness :
  spatial_occupancy [0; 1; 2] pos_2x3 speed_3 (kw_arena10 (Some "Linear"%string) None)
    = Err (NotImplementedError linear_msg) /\
  spatial_occupancy [0; 1; 2] pos_2x3 speed_3 (kw_arena10 (Some "hexagon"%string) None)
    = Err (NotImplementedError (unknown_shape_msg "hexagon")).
Proof.
  split.
  - rewrite (proj1 (spatial_occupancy_linear_and_unknown_shapes
                      [0; 1; 2] pos_2x3 speed_3 (kw_arena10 (Some "Linear"%string) None))
               eq_refl).
    vm_compute. reflexivity.
  - rewrite (proj1 (proj2 (spatial_occupancy_linear_and_unknown_shapes
                      [0; 1; 2] pos_2x3 speed_3 (kw_arena10 (Some "hexagon"%string) None))
               eq_refl eq_refl eq_refl)).
    vm_compute. reflexivity.
Defined.

Lemma spatial_occupancy_speed_and_arena_checks_witness :
  spatial_occupancy [0; 1; 2] pos_2x3 (mk_ndarray 1 [1; 1]) (kw_arena10 None None)
    = Err ValueError /\
  spatial_occupancy [0; 1; 2] pos_2x3 speed_3 (mk_kwargs None None None None None false)
    = Err KeyError.
Proof.
  split.
  - apply (proj1 (spatial_occupancy_speed_and_arena_checks
                    [0; 1; 2] pos_2x3 (mk_ndarray 1 [1; 1]) (kw_arena10 None None))).
    right. simpl. lia.
  - exact (proj2 (spatial_occupancy_speed_and_arena_checks
                    [0; 1; 2] pos_2x3 speed_3 (mk_kwargs None None None None None false))
             eq_refl).
Defined.

Lemma accumulatespatial_ndarray_limits_raise_witness :
  match accumulatespatial pos_2x3 (kw_arena10 None (Some (LNdarray [0; 10; 0; 10]))) with
  | Ok _ => False
  | Err _ => True
  end.
Proof.
  destruct (accumulatespatial pos_2x3 (kw_arena10 None (Some (LNdarray [0; 10; 0; 10]))))
    as [r | e] eqn:H; [| exact I].
  apply (accumulatespatial_ndarray_limits_raise pos_2x3
           (kw_arena10 None (Some (LNdarray [0; 10; 0; 10]))) [0; 10; 0; 10] eq_refl
           ltac:(simpl; lia) r H).
Defined.

Lemma accumulatespatial_bin_edges_witness :
  match accumulatespatial pos_2x3 (kw_arena10 None None) with
  | Ok (h, e) =>
      exists arena is_2d,
        validatekeyword__arena_size (Some (PyNum 10)) 2 = Ok (arena, is_2d) /\
        match arena, e with
        | Arena1 a, Edges1 edges => axis_edges_ok edges a default.bin_width
        | Arena2 ax ay, Edges2 yedges xedges =>
            axis_edges_ok xedges ax default.bin_width /\
            axis_edges_ok yedges ay default.bin_width
        | _, _ => False
        end
  | Err _ => False
  end.
Proof.
  destruct (accumulatespatial pos_2x3 (kw_arena10 None None)) as [[h e] | err] eqn:H.
  - exact (accumulatespatial_bin_edges _ _ _ _ H).
  - vm_compute in H. discriminate H.
Defined.

(** C3 fails as stated in 2-D: the histogram is not the one of the
    unfiltered arrays over the declared range, which would count the sample
    on the upper [x] limit. *)
Lemma accumulatespatial_2d_unfiltered_counterexample :
  match accumulatespatial (mk_ndarray2 [[10; 1]; [1; 1]] 2)
          (kw_arena10 None (Some (LTuple [0; 10; 0; 10]))),
        histogram2d [10; 1] [1; 1] [NFin 4; NFin 4] ((0, 10), (0, 10)) with
  | Ok (Hist2 h, _), Ok (h', _, _) => h <> np_transpose h'
  | _, _ => False
  end.
Proof. vm_compute. discriminate. Qed.

Lemma accumulatespatial_2d_in_range_subset_witness :
  length [1; 3; 5] = length [1; 2; 7] /\
  limits_2d [1; 3; 5] [1; 2; 7] (kw_limits (kw_arena10 None None)) = Ok ((1, 5), (1, 7)) /\
  accumulatespatial pos_2x3 (kw_arena10 None None) =
  accumulatespatial (mk_ndarray2 [[1; 3]; [1; 2]] 2)
    (with_limits (kw_arena10 None None) (LTuple [1; 5; 1; 7])) /\
  accumulatespatial (mk_ndarray2 [[10; 1]; [1; 1]] 2)
    (kw_arena10 None (Some (LTuple [0; 10; 0; 10]))) =
  accumulatespatial (mk_ndarray2 [[1]; [1]] 1)
    (kw_arena10 None (Some (LTuple [0; 10; 0; 10]))).
Proof.
  assert (Hl : limits_2d [1; 3; 5] [1; 2; 7] (kw_limits (kw_arena10 None None))
               = Ok ((1, 5), (1, 7))) by (vm_compute; reflexivity).
  split; [reflexivity | split; [exact Hl | split]].
  - change pos_2x3 with (mk_ndarray2 [[1; 3; 5]; [1; 2; 7]] 3).
    rewrite (proj1 (accumulatespatial_2d_in_range_subset [1; 3; 5] [1; 2; 7] [] [] 3 0
                      (kw_arena10 None None) eq_refl) 1 5 1 7 Hl).
    vm_compute. reflexivity.
  - apply (proj2 (accumulatespatial_2d_in_range_subset [10; 1] [1; 1] [1] [1] 2 1
                    (kw_arena10 None (Some (LTuple [0; 10; 0; 10]))) eq_refl)
             eq_refl eq_refl).
    vm_compute. reflexivity.
Defined.

(** The 2-D histogram of three samples, one of them on the upper [x] limit. *)
Lemma accumulatespatial_counts_half_open_witness :
  let pos := mk_ndarray2 [[10; 1; 3]; [1; 1; 2]] 3 in
  let kw := kw_arena10 None (Some (LTuple [0; 10; 0; 10])) in
  let g0 := [[1; 1; 0; 0]; [0; 0; 0; 0]; [0; 0; 0; 0]; [0; 0; 0; 0]]%nat in
  let e0 := Edges2 (linspace 0 10 4) (linspace 0 10 4) in
  accumulatespatial pos kw = Ok (Hist2 g0, e0) /\ list_sum (concat g0) = 2%nat /\
  exists x y g ye xe xl xh yl yh,
    p_rows pos = [x; y] /\ Hist2 g0 = Hist2 g /\ e0 = Edges2 ye xe /\
    limits_2d x y (kw_limits kw) = Ok ((xl, xh), (yl, yh)) /\
    forall i j, (S i < length xe)%nat -> (S j < length ye)%nat ->
      nth i (nth j g []) O =
      length (filter (fun p => ((Qleb xl (fst p) && Qltb (fst p) xh) &&
                                (Qleb yl (snd p) && Qltb (snd p) yh)) &&
                               (Qleb (nth i xe 0) (fst p) && Qltb (fst p) (nth (S i) xe 0)) &&
                               (Qleb (nth j ye 0) (snd p) && Qltb (snd p) (nth (S j) ye 0)))
                     (combine x y)).
Proof.
  cbv zeta.
  assert (H : accumulatespatial (mk_ndarray2 [[10; 1; 3]; [1; 1; 2]] 3)
                (kw_arena10 None (Some (LTuple [0; 10; 0; 10]))) =
              Ok (Hist2 [[1; 1; 0; 0]; [0; 0; 0; 0]; [0; 0; 0; 0]; [0; 0; 0; 0]]%nat,
                  Edges2 (linspace 0 10 4) (linspace 0 10 4))) by (vm_compute; reflexivity).
  split; [exact H | split; [reflexivity |]].
  destruct (accumulatespatial_counts_half_open _ _ _ _ H)
    as (x & y & g & ye & xe & xl & xh & yl & yh & Hr & Hg & He & Hl & Hc).
  exists x, y, g, ye, xe, xl, xh, yl, yh. auto.
Defined.


(** ** Witnesses of the further properties *)

Lemma accumulatespatial_2d_cells_witness :
  let x := [1; 3; 5] in
  let y := [1; 2; 7] in
  let h := pos_2x3_cells in
  let ye := linspace 0 10 4 in
  let xe := linspace 0 10 4 in
  let kw := kw_arena10 None (Some (LTuple [0; 10; 0; 10])) in
  accumulatespatial (mk_ndarray2 [x; y] 3) kw = Ok (Hist2 h, Edges2 ye xe) /\
  exists lims,
    limits_2d x y (kw_limits kw) = Ok lims /\
    length h = Nat.pred (length ye) /\
    Forall (fun row => length row = Nat.pred (length xe)) h /\
    forall i j, (S i < length xe)%nat -> (S j < length ye)%nat ->
      nth i (nth j h []) O =
      length (filter (fun p => in_box lims p &&
                               (Qleb (nth i xe 0) (fst p) && Qltb (fst p) (nth (S i) xe 0)) &&
                               (Qleb (nth j ye 0) (snd p) && Qltb (snd p) (nth (S j) ye 0)))
                     (combine x y)).
Proof.
  cbv zeta.
  assert (H : accumulatespatial pos_2x3 (kw_arena10 None (Some (LTuple [0; 10; 0; 10]))) =
              Ok (Hist2 pos_2x3_cells, Edges2 (linspace 0 10 4) (linspace 0 10 4)))
    by (vm_compute; reflexivity).
  split; [exact H | exact (accumulatespatial_2d_cells _ _ _ _ _ _ _ H)].
Defined.

Lemma accumulatespatial_2d_total_witness :
  let kw := kw_arena10 None (Some (LTuple [0; 10; 0; 10])) in
  accumulatespatial pos_2x3 kw =
    Ok (Hist2 pos_2x3_cells, Edges2 (linspace 0 10 4) (linspace 0 10 4)) /\
  exists lims, limits_2d [1; 3; 5] [1; 2; 7] (kw_limits kw) = Ok lims /\
    list_sum (concat pos_2x3_cells) = length (filter (in_box lims) (combine [1; 3; 5] [1; 2; 7])).
Proof.
  cbv zeta.
  assert (H : accumulatespatial pos_2x3 (kw_arena10 None (Some (LTuple [0; 10; 0; 10]))) =
              Ok (Hist2 pos_2x3_cells, Edges2 (linspace 0 10 4) (linspace 0 10 4)))
    by (vm_compute; reflexivity).
  split; [exact H | exact (accumulatespatial_2d_total _ _ _ _ _ _ H)].
Defined.

Lemma accumulatespatial_2d_default_limits_drop_max_witness :
  kw_limits (kw_arena10 None None) = None /\
  (match accumulatespatial pos_2x3 (kw_arena10 None None) with
   | Ok (Hist2 h, _) => (list_sum (concat h) = 2 /\ list_sum (concat h) < 3)%nat
   | _ => False
   end).
Proof.
  split; [reflexivity |].
  destruct (accumulatespatial pos_2x3 (kw_arena10 None None)) as [[[h | h] e] | err] eqn:H;
    try (vm_compute in H; discriminate H).
  split.
  - vm_compute in H. injection H as <- _. reflexivity.
  - exact (accumulatespatial_2d_default_limits_drop_max _ _ _ (kw_arena10 None None) _ _ eq_refl H).
Defined.

Lemma accumulatespatial_2d_bin_width_witness :
  let kw := kw_arena10 None (Some (LTuple [0; 20; 0; 20])) in
  let h := [[2; 0; 0; 0]; [0; 1; 0; 0]; [0; 0; 0; 0]; [0; 0; 0; 0]]%nat in
  let e := linspace 0 20 4 in
  accumulatespatial pos_2x3 kw = Ok (Hist2 h, Edges2 e e) /\
  limits_2d [1; 3; 5] [1; 2; 7] (kw_limits kw) = Ok ((0, 20), (0, 20)) /\ 0 < 20 /\
  ((forall i, (S i < length e)%nat ->
     nth (S i) e 0 - nth i e 0 == (20 - 0) / Q_of_nat (Nat.pred (length e))) /\
   (forall j, (S j < length e)%nat ->
     nth (S j) e 0 - nth j e 0 == (20 - 0) / Q_of_nat (Nat.pred (length e)))).
Proof.
  cbv zeta.
  assert (H : accumulatespatial pos_2x3 (kw_arena10 None (Some (LTuple [0; 20; 0; 20]))) =
              Ok (Hist2 [[2; 0; 0; 0]; [0; 1; 0; 0]; [0; 0; 0; 0]; [0; 0; 0; 0]]%nat,
                  Edges2 (linspace 0 20 4) (linspace 0 20 4))) by (vm_compute; reflexivity).
  assert (Hl : limits_2d [1; 3; 5] [1; 2; 7] (Some (LTuple [0; 20; 0; 20])) = Ok ((0, 20), (0, 20)))
    by (vm_compute; reflexivity).
  assert (Hlt : 0 < 20) by lra.
  split; [exact H | split; [exact Hl | split; [exact Hlt |]]].
  exact (accumulatespatial_2d_bin_width _ _ _ _ _ _ _ _ _ _ _ H Hl Hlt Hlt).
Defined.

Lemma spatial_occupancy_ignores_slow_samples_witness :
  let speed := mk_ndarray 1 [1; 0; 1] in
  let kw := kw_arena10 None (Some (LTuple [0; 10; 0; 10])) in
  length [1; 3; 5] = length (nd_flat speed) /\ length [1; 2; 7] = length (nd_flat speed) /\
  length [1; 9; 5] = length (nd_flat speed) /\ length [1; 9; 7] = length (nd_flat speed) /\
  (forall k, get (kw_speed_cutoff kw) default.speed_cutoff < nth k (nd_flat speed) 0 ->
     nth k [1; 3; 5] 0 = nth k [1; 9; 5] 0 /\ nth k [1; 2; 7] 0 = nth k [1; 9; 7] 0) /\
  spatial_occupancy [0; 1; 2] (mk_ndarray2 [[1; 3; 5]; [1; 2; 7]] 3) speed kw =
  spatial_occupancy [0; 1; 2] (mk_ndarray2 [[1; 9; 5]; [1; 9; 7]] 3) speed kw.
Proof.
  cbv zeta.
  assert (Hk : forall k, get (kw_speed_cutoff (kw_arena10 None (Some (LTuple [0; 10; 0; 10]))))
                           default.speed_cutoff < nth k (nd_flat (mk_ndarray 1 [1; 0; 1])) 0 ->
                nth k [1; 3; 5] 0 = nth k [1; 9; 5] 0 /\ nth k [1; 2; 7] 0 = nth k [1; 9; 7] 0).
  { intros [| [| k]] Hc; try (split; reflexivity).
    exfalso. vm_compute in Hc. discriminate Hc. }
  split; [reflexivity | split; [reflexivity | split; [reflexivity | split; [reflexivity | split; [exact Hk |]]]]].
  exact (spatial_occupancy_ignores_slow_samples [0; 1; 2] [1; 3; 5] [1; 2; 7] [1; 9; 5] [1; 9; 7] 3 (mk_ndarray 1 [1; 0; 1]) (kw_arena10 None (Some (LTuple [0; 10; 0; 10])))
           eq_refl eq_refl eq_refl eq_refl Hk).
Defined.

Lemma spatial_occupancy_time_only_through_min_delta_witness :
  let kw := kw_arena10 None (Some (LTuple [0; 10; 0; 10])) in
  kw_debug kw = false /\
  np_min (np_diff [0; 1; 2]) = np_min (np_diff [5; 6]) /\
  spatial_occupancy [0; 1; 2] pos_2x3 speed_3 kw = spatial_occupancy [5; 6] pos_2x3 speed_3 kw.
Proof.
  cbv zeta.
  assert (Ht : np_min (np_diff [0; 1; 2]) = np_min (np_diff [5; 6])) by (vm_compute; reflexivity).
  split; [reflexivity | split; [exact Ht |]].
  exact (spatial_occupancy_time_only_through_min_delta _ _ pos_2x3 speed_3 (kw_arena10 None (Some (LTuple [0; 10; 0; 10]))) eq_refl Ht).
Defined.

Lemma spatial_occupancy_short_time_raises_witness :
  (length [0%Q] < 2)%nat /\
  forall r, spatial_occupancy [0] pos_2x3 speed_3 (kw_arena10 None None) <> Ok r.
Proof.
  assert (Hs : (length [0%Q] < 2)%nat) by (simpl; lia).
  split; [exact Hs | exact (spatial_occupancy_short_time_raises _ _ _ _ Hs)].
Defined.

Lemma spatial_occupancy_square_coverage_witness :
  let kw := kw_arena10 None (Some (LTuple [0; 10; 0; 10])) in
  py_in (py_lower (get (kw_arena_shape kw) default.shape)) default.shapes_square = true /\
  match spatial_occupancy [0; 1; 2] pos_2x3 speed_3 kw with
  | Ok (mm, cov, e) =>
      exists h fd,
        occupancy_histogram [0; 1; 2] pos_2x3 speed_3 kw = Ok (h, e, fd) /\
        (cov == 1 <-> Forall (fun c => c <> 0%nat) (hist_flat h)) /\
        (cov == 0 <-> Forall (fun c => c = 0%nat) (hist_flat h))
  | Err _ => False
  end.
Proof.
  cbv zeta.
  assert (Hsq : py_in (py_lower (get (kw_arena_shape (kw_arena10 None (Some (LTuple [0; 10; 0; 10]))))
                  default.shape)) default.shapes_square = true) by (vm_compute; reflexivity).
  split; [exact Hsq |].
  destruct (spatial_occupancy [0; 1; 2] pos_2x3 speed_3 (kw_arena10 None (Some (LTuple [0; 10; 0; 10]))))
    as [[[mm cov] e] | err] eqn:H.
  - exact (spatial_occupancy_square_coverage _ _ _ _ _ _ _ Hsq H).
  - vm_compute in H. discriminate H.
Defined.

Lemma spatial_occupancy_circle_off_origin_witness :
  let kw := kw_arena10 (Some "circle"%string) (Some (LTuple [20; 30; 20; 30])) in
  py_in (py_lower (get (kw_arena_shape kw) default.shape)) default.shapes_circle = true /\
  circle_radius (kw_arena_size kw) = Ok (Some (10 # 2)) /\
  match spatial_occupancy [0; 1; 2] pos_2x3_far speed_3 kw with
  | Ok (mm, cov, Edges2 e0 e1) =>
      (forall a b, In a (removelast e0) -> In b (removelast e1) ->
         (10 # 2) * (10 # 2) < (a + get (kw_bin_width kw) default.bin_width / 2) *
                 (a + get (kw_bin_width kw) default.bin_width / 2) +
                 (b + get (kw_bin_width kw) default.bin_width / 2) *
                 (b + get (kw_bin_width kw) default.bin_width / 2)) /\
      cov = 1
  | _ => False
  end.
Proof.
  cbv zeta.
  assert (Hc : py_in (py_lower (get (kw_arena_shape (kw_arena10 (Some "circle"%string)
                 (Some (LTuple [20; 30; 20; 30])))) default.shape)) default.shapes_circle = true)
    by (vm_compute; reflexivity).
  assert (Hr : circle_radius (kw_arena_size (kw_arena10 (Some "circle"%string)
                 (Some (LTuple [20; 30; 20; 30])))) = Ok (Some (10 # 2))) by (vm_compute; reflexivity).
  split; [exact Hc | split; [exact Hr |]].
  destruct (spatial_occupancy [0; 1; 2] pos_2x3_far speed_3
              (kw_arena10 (Some "circle"%string) (Some (LTuple [20; 30; 20; 30]))))
    as [[[mm cov] [e | e0 e1]] | err] eqn:H; try (vm_compute in H; discriminate H).
  assert (Hfar : forall a b, In a (removelast e0) -> In b (removelast e1) ->
         (10 # 2) * (10 # 2) < (a + get (kw_bin_width (kw_arena10 (Some "circle"%string)
                        (Some (LTuple [20; 30; 20; 30])))) default.bin_width / 2) *
                 (a + get (kw_bin_width (kw_arena10 (Some "circle"%string)
                        (Some (LTuple [20; 30; 20; 30])))) default.bin_width / 2) +
                 (b + get (kw_bin_width (kw_arena10 (Some "circle"%string)
                        (Some (LTuple [20; 30; 20; 30])))) default.bin_width / 2) *
                 (b + get (kw_bin_width (kw_arena10 (Some "circle"%string)
                        (Some (LTuple [20; 30; 20; 30])))) default.bin_width / 2)).
  { vm_compute in H. injection H as _ _ <- <-.
    intros a b Ha Hb. vm_compute in Ha, Hb.
    repeat destruct Ha as [<- | Ha]; try contradiction;
      repeat destruct Hb as [<- | Hb]; try contradiction;
      vm_compute; reflexivity. }
  split; [exact Hfar |].
  exact (spatial_occupancy_circle_off_origin _ _ _ _ _ _ _ _ _ Hc H Hr Hfar).
Defined.

Lemma spatial_occupancy_no_fast_samples_witness :
  let speed := mk_ndarray 1 [0; 0; 0] in
  Forall (fun s => s <= get (kw_speed_cutoff (kw_arena10 None None)) default.speed_cutoff)
    (nd_flat speed) /\
  (forall r, spatial_occupancy [0; 1; 2] pos_2x3 speed (kw_arena10 None None) <> Ok r) /\
  match spatial_occupancy [0; 1; 2] pos_2x3 speed (kw_arena10 None (Some (LTuple [0; 10; 0; 10]))) with
  | Ok (mm, _, _) => Forall (fun b => snd b = true) (masked_flat mm)
  | Err _ => False
  end.
Proof.
  cbv zeta.
  assert (Hs : forall lim, Forall (fun s => s <= get (kw_speed_cutoff (kw_arena10 None lim))
                                                 default.speed_cutoff)
                           (nd_flat (mk_ndarray 1 [0; 0; 0]))).
  { intros lim. repeat constructor; vm_compute; discriminate. }
  split; [exact (Hs None) | split].
  - exact (proj1 (spatial_occupancy_no_fast_samples _ _ _ _ (Hs None)) eq_refl).
  - destruct (spatial_occupancy [0; 1; 2] pos_2x3 (mk_ndarray 1 [0; 0; 0])
                (kw_arena10 None (Some (LTuple [0; 10; 0; 10])))) as [[[mm cov] e] | err] eqn:H.
    + exact (proj2 (spatial_occupancy_no_fast_samples _ _ _ _ (Hs _)) _ _ _ H).
    + vm_compute in H. discriminate H.
Defined.

Lemma accumulatespatial_rejects_bad_input_witness :
  ((length (p_rows (mk_ndarray2 [[0]; [0]; [0]] 1)) <> 1%nat /\
    length (p_rows (mk_ndarray2 [[0]; [0]; [0]] 1)) <> 2%nat) /\
   accumulatespatial (mk_ndarray2 [[0]; [0]; [0]] 1) (kw_arena10 None None) = Err ValueError) /\
  (kw_limits (kw_arena10 None (Some LOther)) = Some LOther /\
   accumulatespatial pos_2x3 (kw_arena10 None (Some LOther)) = Err ValueError).
Proof.
  assert (H3 : length (p_rows (mk_ndarray2 [[0]; [0]; [0]] 1)) <> 1%nat /\
               length (p_rows (mk_ndarray2 [[0]; [0]; [0]] 1)) <> 2%nat) by (simpl; lia).
  split; split.
  - exact H3.
  - exact (accumulatespatial_rejects_bad_input _ _ (or_introl H3)).
  - reflexivity.
  - exact (accumulatespatial_rejects_bad_input pos_2x3 (kw_arena10 None (Some LOther)) (or_intror eq_refl)).
Defined.

Lemma accumulatespatial_limits_wrong_length_witness :
  let kw := kw_arena10 None (Some (LTuple [0; 10])) in
  kw_limits kw <> None /\
  length (limits_elems (kw_limits kw)) <> (2 * length (p_rows pos_2x3))%nat /\
  forall r, accumulatespatial pos_2x3 kw <> Ok r.
Proof.
  cbv zeta.
  assert (H1 : kw_limits (kw_arena10 None (Some (LTuple [0; 10]))) <> None) by discriminate.
  assert (H2 : length (limits_elems (kw_limits (kw_arena10 None (Some (LTuple [0; 10])))))
               <> (2 * length (p_rows pos_2x3))%nat) by (vm_compute; discriminate).
  split; [exact H1 | split; [exact H2 |]].
  exact (accumulatespatial_limits_wrong_length _ _ H1 H2).
Defined.

Lemma accumulatespatial_bin_count_sign_witness :
  match accumulatespatial pos_2x3 (kw_arena10 None None) with
  | Ok (h, e) =>
      let bin_width := get (kw_bin_width (kw_arena10 None None)) default.bin_width in
      ~ bin_width == 0 /\
      exists arena is_2d,
        validatekeyword__arena_size (kw_arena_size (kw_arena10 None None))
          (length (p_rows pos_2x3)) = Ok (arena, is_2d) /\
        match arena with
        | Arena1 a => 0 < a / bin_width
        | Arena2 ax ay => 0 < ax / bin_width /\ 0 < ay / bin_width
        end
  | Err _ => False
  end.
Proof.
  destruct (accumulatespatial pos_2x3 (kw_arena10 None None)) as [[h e] | err] eqn:H.
  - exact (accumulatespatial_bin_count_sign _ _ _ _ H).
  - vm_compute in H. discriminate H.
Defined.

Lemma accumulatespatial_1d_raises_TypeError_witness :
  let kw := kw_arena10 None (Some (LTuple [0; 10])) in
  limits_type_bad (kw_limits kw) = false /\
  validatekeyword__arena_size (kw_arena_size kw) 1 = Ok (Arena1 10, false) /\
  ~ get (kw_bin_width kw) default.bin_width == 0 /\
  limits_1d [1; 3; 10] (kw_limits kw) = Ok (0, 10) /\
  accumulatespatial (mk_ndarray2 [[1; 3; 10]] 3) kw = Err TypeError.
Proof.
  cbv zeta.
  assert (Hb : limits_type_bad (kw_limits (kw_arena10 None (Some (LTuple [0; 10])))) = false)
    by reflexivity.
  assert (Hv : validatekeyword__arena_size (kw_arena_size (kw_arena10 None (Some (LTuple [0; 10])))) 1
               = Ok (Arena1 10, false)) by reflexivity.
  assert (Hw : ~ get (kw_bin_width (kw_arena10 None (Some (LTuple [0; 10])))) default.bin_width == 0)
    by (intros Hq; vm_compute in Hq; discriminate Hq).
  assert (Hl : limits_1d [1; 3; 10] (kw_limits (kw_arena10 None (Some (LTuple [0; 10]))))
               = Ok (0, 10)) by (vm_compute; reflexivity).
  split; [exact Hb | split; [exact Hv | split; [exact Hw | split; [exact Hl |]]]].
  exact (accumulatespatial_1d_raises_TypeError _ _ _ _ _ Hb Hv Hw Hl).
Defined.
